(** * x86-64 paging structure helpers (x86_64_paging.h)

    A shallow embedding of the header [x86_64_paging.h]: the namespace
    [PSE] of bit-layout constants and of the [constexpr] helpers that
    split a virtual address into its table indices, mask an entry down to
    the table base it points to, and assemble entry and leaf addresses.

    [std::uint64_t] is modelled as [Z] restricted to [0 <= x < 2^64]
    ([is_u64]); the two operations of the header that can leave that range
    on unbounded integers, [<<] and [*], are wrapped modulo [2^64]
    ([wrap64]).  [&], [|] and [>>] map to [Z.land], [Z.lor], [Z.shiftr]. *)

From Stdlib Require Import ZArith Lia Bool List.
Import ListNotations.

Local Open Scope Z_scope.
Local Open Scope bool_scope.

(** ** 64-bit unsigned arithmetic *)

Definition is_u64 (x : Z) : Prop := 0 <= x < 2 ^ 64.

Definition wrap64 (x : Z) : Z := x mod 2 ^ 64.

(** [a << n] on [std::uint64_t], for a shift count below 64. *)
Definition shl64 (a n : Z) : Z := wrap64 (Z.shiftl a n).

(** [a * b] on [std::uint64_t]. *)
Definition mul64 (a b : Z) : Z := wrap64 (a * b).

(** Conversion of a [std::uint64_t] to [bool]: non-zero is [true]. *)
Definition to_bool (x : Z) : bool := negb (x =? 0).

(** A run of [w] ones starting at bit [lo]: the shape of every address
    mask of the header. *)
Definition field_mask (lo w : Z) : Z := Z.shiftl (Z.ones w) lo.

(** The bits above the architectural 52-bit physical address, 63:52. *)
Definition ABOVE_PHYS_52 : Z := 0xFFF0000000000000.

(** A value is a physical address of at most 52 bits. *)
Definition phys52 (a : Z) : Prop := is_u64 a /\ Z.land a ABOVE_PHYS_52 = 0.

(** An entry address inside the 4 KiB table at [table_base]: the base is
    page aligned, the index is below 512, and the address is the base
    OR-ed with eight times the index, hence 8-byte aligned and such that
    the whole 8-byte entry lies in the table. *)
Definition entry_address_in_table (table_base index address : Z) : Prop :=
  table_base mod 4096 = 0 /\
  0 <= index < 512 /\
  address = Z.lor table_base (index * 8) /\
  address = table_base + index * 8 /\
  address mod 8 = 0 /\
  table_base <= address /\ address + 8 <= table_base + 4096.

(** ** The namespace [PSE] *)

Module PSE.

Definition TABLE_BASE_MASK : Z := 0x000FFFFFFFFFF000.

(* Virtual address related *)
Module VA.
Definition PML4E_INDEX : Z := 39.
Definition PDPTE_INDEX : Z := 30.
Definition PDE_INDEX : Z := 21.
Definition PTE_INDEX : Z := 12.

Definition PSE_MASK : Z := 0x1FF.
Definition PAGE_OFFSET_4KB_MASK : Z := 0x0FFF.
Definition PAGE_OFFSET_2MB_MASK : Z := 0x1FFFFF.
Definition PAGE_OFFSET_1GB_MASK : Z := 0x3FFFFFFF.
End VA.

(* Control register 3 *)
Module CR3.
Definition PML4_BASE_MASK : Z := TABLE_BASE_MASK.

Definition PWT : Z := shl64 1 3.
Definition PCD : Z := shl64 1 4.
End CR3.

(* Page map level 4 entry *)
Module PML4E.
Definition PDPTE_ADDRESS_MASK : Z := TABLE_BASE_MASK.

Definition PRESENT : Z := shl64 1 0.
Definition RW : Z := shl64 1 1.
Definition US : Z := shl64 1 2.
Definition PWT : Z := shl64 1 3.
Definition PCD : Z := shl64 1 4.
Definition A : Z := shl64 1 5.
Definition R : Z := shl64 1 11.
Definition XD : Z := shl64 1 63.

Definition GET_INDEX (virtual_address : Z) : Z :=
  Z.land (Z.shiftr virtual_address VA.PML4E_INDEX) VA.PSE_MASK.

Definition GET_TABLE_BASE (cr3 : Z) : Z :=
  Z.land cr3 CR3.PML4_BASE_MASK.

Definition GET_ADDRESS (cr3 virtual_address : Z) : Z :=
  Z.lor (GET_TABLE_BASE cr3) (mul64 (GET_INDEX virtual_address) 8).
End PML4E.

(* Page directory pointer table entry *)
Module PDPTE.
Definition PDE_ADDRESS_MASK : Z := TABLE_BASE_MASK.

Definition PRESENT : Z := shl64 1 0.
Definition RW : Z := shl64 1 1.
Definition US : Z := shl64 1 2.
Definition PWT : Z := shl64 1 3.
Definition PCD : Z := shl64 1 4.
Definition A : Z := shl64 1 5.
Definition PS : Z := shl64 1 7.
Definition R : Z := shl64 1 11.
Definition XD : Z := shl64 1 63.

Module GB.
Definition PHYS_ADDRESS_MASK : Z := 0x000FFFFFC0000000.
Definition D : Z := shl64 1 6.
Definition G : Z := shl64 1 8.
Definition PAT : Z := shl64 1 12.
Definition PKE : Z := shl64 1 59.

Definition GET_ADDRESS (pdpte virtual_address : Z) : Z :=
  Z.lor (Z.land pdpte PHYS_ADDRESS_MASK)
        (Z.land virtual_address VA.PAGE_OFFSET_1GB_MASK).
End GB.

Definition GET_INDEX (virtual_address : Z) : Z :=
  Z.land (Z.shiftr virtual_address VA.PDPTE_INDEX) VA.PSE_MASK.

Definition GET_TABLE_BASE (pml4e : Z) : Z :=
  Z.land pml4e PML4E.PDPTE_ADDRESS_MASK.

Definition GET_ADDRESS (pml4e virtual_address : Z) : Z :=
  Z.lor (GET_TABLE_BASE pml4e) (mul64 (GET_INDEX virtual_address) 8).

Definition IS_LARGE_PAGE (pdpte : Z) : bool :=
  to_bool (Z.land pdpte PS).
End PDPTE.

(* Page directory entry *)
Module PDE.
Definition PTE_ADDRESS_MASK : Z := TABLE_BASE_MASK.

Definition PRESENT : Z := shl64 1 0.
Definition RW : Z := shl64 1 1.
Definition US : Z := shl64 1 2.
Definition PWT : Z := shl64 1 3.
Definition PCD : Z := shl64 1 4.
Definition A : Z := shl64 1 5.
Definition PS : Z := shl64 1 7.
Definition R : Z := shl64 1 11.
Definition XD : Z := shl64 1 63.

Module MB.
Definition PHYS_ADDRESS_MASK : Z := 0x000FFFFFFFE00000.
Definition D : Z := shl64 1 6.
Definition G : Z := shl64 1 8.
Definition PAT : Z := shl64 1 12.
Definition PKE : Z := shl64 1 59.

Definition GET_ADDRESS (pde virtual_address : Z) : Z :=
  Z.lor (Z.land pde PHYS_ADDRESS_MASK)
        (Z.land virtual_address VA.PAGE_OFFSET_2MB_MASK).
End MB.

Definition GET_INDEX (virtual_address : Z) : Z :=
  Z.land (Z.shiftr virtual_address VA.PDE_INDEX) VA.PSE_MASK.

Definition GET_TABLE_BASE (pdpte : Z) : Z :=
  Z.land pdpte PDPTE.PDE_ADDRESS_MASK.

Definition GET_ADDRESS (pdpte virtual_address : Z) : Z :=
  Z.lor (GET_TABLE_BASE pdpte) (mul64 (GET_INDEX virtual_address) 8).

Definition IS_LARGE_PAGE (pde : Z) : bool :=
  to_bool (Z.land pde PS).
End PDE.

(* Page table entry *)
Module PTE.
Definition PHYS_ADDRESS_MASK : Z := TABLE_BASE_MASK.

Definition PRESENT : Z := shl64 1 0.
Definition RW : Z := shl64 1 1.
Definition US : Z := shl64 1 2.
Definition PWT : Z := shl64 1 3.
Definition PCD : Z := shl64 1 4.
Definition A : Z := shl64 1 5.
Definition D : Z := shl64 1 6.
Definition PAT : Z := shl64 1 7.
Definition G : Z := shl64 1 8.
Definition R : Z := shl64 1 11.
Definition PKE : Z := shl64 1 59.
Definition XD : Z := shl64 1 63.

Definition GET_INDEX (virtual_address : Z) : Z :=
  Z.land (Z.shiftr virtual_address VA.PTE_INDEX) VA.PSE_MASK.

Definition GET_TABLE_BASE (pde : Z) : Z :=
  Z.land pde PDE.PTE_ADDRESS_MASK.

Definition GET_ADDRESS (pde virtual_address : Z) : Z :=
  Z.lor (GET_TABLE_BASE pde) (mul64 (GET_INDEX virtual_address) 8).
End PTE.

(* Page entry *)
Module PE.
Definition GET_ADDRESS (pte virtual_address : Z) : Z :=
  Z.lor (Z.land pte PTE.PHYS_ADDRESS_MASK)
        (Z.land virtual_address VA.PAGE_OFFSET_4KB_MASK).
End PE.

End PSE.

(** ** The page walk

    The header stops at the helpers above; its opening comment describes
    how a caller chains them (PML4 -> PDPTE -> PDE -> PTE, with the two
    PS = 1 shortcuts, checking the present bit of every entry read), and
    the specification names that chain [translate].  The walk is stated
    here over a caller-supplied read capability that may fail and may have
    effects of its own; those are threaded through as a [World]. *)

Module Walker.
Import PSE.

(** Modelled from the spec: the four levels of the hierarchy, in the order
    they are visited; the header has them as namespaces only. *)
Inductive Level : Type := LvlPML4 | LvlPDPTE | LvlPDE | LvlPTE.

(** Modelled from the spec: the page size of a resolved leaf. *)
Inductive PageSize : Type := Page4KiB | Page2MiB | Page1GiB.

(** Modelled from the spec: the fault reasons of section 7; a read error
    carries the cause the read capability gave. *)
Inductive Reason (Cause : Type) : Type :=
| NotPresent
| ReadError (underlying_cause : Cause).
Arguments NotPresent {Cause}.
Arguments ReadError {Cause} underlying_cause.

(** Modelled from the spec: [TranslationOutcome] of section 3. *)
Inductive TranslationOutcome (Cause : Type) : Type :=
| Resolved (physical_address : Z) (page_size : PageSize) (effective_flags : Z)
| Fault (level : Level) (reason : Reason Cause).
Arguments Resolved {Cause} physical_address page_size effective_flags.
Arguments Fault {Cause} level reason.

(** Modelled from the spec: the result of [decode] (section 4.2). *)
Record Decoded : Type := mkDecoded {
  present : bool;
  is_leaf : bool;
  next_or_frame_base : Z;
  flags : Z
}.

(** Modelled from the spec: the per-level leaf test of the Entry Decoder
    (section 4.2).  The header has [IS_LARGE_PAGE] in [PDPTE] and [PDE]
    only; the two other levels have no test, and the spec fixes them to
    "never a leaf" (PML4E) and "always a leaf" (PTE). *)
Definition level_is_leaf (level : Level) (entry_value : Z) : bool :=
  match level with
  | LvlPML4 => false
  | LvlPDPTE => PDPTE.IS_LARGE_PAGE entry_value
  | LvlPDE => PDE.IS_LARGE_PAGE entry_value
  | LvlPTE => true
  end.

(** Modelled from the spec: the present test of the Entry Decoder, bit 0
    of the entry, written with the header's per-level [PRESENT]
    constant as the header's comment does ([PDPTE & PSE::PDPTE::PRESENT]). *)
Definition level_present (level : Level) (entry_value : Z) : bool :=
  match level with
  | LvlPML4 => to_bool (Z.land entry_value PML4E.PRESENT)
  | LvlPDPTE => to_bool (Z.land entry_value PDPTE.PRESENT)
  | LvlPDE => to_bool (Z.land entry_value PDE.PRESENT)
  | LvlPTE => to_bool (Z.land entry_value PTE.PRESENT)
  end.

(** Modelled from the spec: the address mask of the Entry Decoder: the
    table mask for an entry that points to a table, the mask of the page
    size for a leaf. *)
Definition level_address_mask (level : Level) (leaf : bool) : Z :=
  match level, leaf with
  | LvlPDPTE, true => PDPTE.GB.PHYS_ADDRESS_MASK
  | LvlPDE, true => PDE.MB.PHYS_ADDRESS_MASK
  | LvlPTE, true => PTE.PHYS_ADDRESS_MASK
  | _, _ => TABLE_BASE_MASK
  end.

(** Modelled from the spec: [decode(level, entry_value)] of section 4.2.
    The header has no such function.  The flags are handed on as the raw
    entry value, which is what "surfaced unmodified" leaves open. *)
Definition decode (level : Level) (entry_value : Z) : Decoded :=
  let leaf := level_is_leaf level entry_value in
  {| present := level_present level entry_value;
     is_leaf := leaf;
     next_or_frame_base := Z.land entry_value (level_address_mask level leaf);
     flags := entry_value |}.

(** Modelled from the spec: [compute_entry_address(table_base, index)] of
    section 6, [table_base | (index * 8)].  The header only has the
    composition with the masking, [GET_ADDRESS]. *)
Definition compute_entry_address (table_base index : Z) : Z :=
  Z.lor table_base (mul64 index 8).

Section Walk.
Context {World Cause : Type}.

(** The injected read capability [read_u64]. *)
Variable read_u64 : World -> Z -> (Cause + Z) * World.

(** A walk either stops with an outcome or carries a value on; the
    world of the read capability is threaded through either way. *)
Definition Walk (A : Type) : Type :=
  World -> (TranslationOutcome Cause + A) * World.

Definition ret {A : Type} (a : A) : Walk A := fun w => (inr a, w).

Definition stop {A : Type} (o : TranslationOutcome Cause) : Walk A :=
  fun w => (inl o, w).

Definition bind {A B : Type} (c : Walk A) (k : A -> Walk B) : Walk B :=
  fun w =>
    match c w with
    | (inl o, w') => (inl o, w')
    | (inr a, w') => k a w'
    end.

Local Notation "x <- c ;; k" := (bind c (fun x => k))
  (at level 61, c at next level, right associativity).

(** Modelled from the spec: one use of the read capability at [level];
    a failure ends the walk with [ReadError] at that level (failure policy
    of section 4.3). *)
Definition read_entry (level : Level) (address : Z) : Walk Z :=
  fun w =>
    match read_u64 w address with
    | (inr entry_value, w') => (inr entry_value, w')
    | (inl cause, w') => (inl (Fault level (ReadError cause)), w')
    end.

(** Modelled from the spec: one step of the Walker (section 4.3):
    compute the entry address, read the entry, decode it, and fault
    when it is not present. *)
Definition step (level : Level) (table_base index : Z) : Walk Decoded :=
  entry_value <- read_entry level (compute_entry_address table_base index) ;;
  let d := decode level entry_value in
  if present d then ret d else stop (Fault level NotPresent).

(** Modelled from the spec: the resolved outcome of a leaf, its frame base
    OR-ed with the offset bits of the virtual address. *)
Definition resolve (d : Decoded) (virtual_address offset_mask : Z)
           (size : PageSize) : TranslationOutcome Cause :=
  Resolved (Z.lor (next_or_frame_base d) (Z.land virtual_address offset_mask))
           size (flags d).

(** Modelled from the spec: the four steps of the Walker (section 4.3),
    in the fixed order PML4 -> PDPTE -> PDE -> PTE. *)
Definition walk (table_root virtual_address : Z)
  : Walk (TranslationOutcome Cause) :=
  pml4e <- step LvlPML4 (PML4E.GET_TABLE_BASE table_root)
                (PML4E.GET_INDEX virtual_address) ;;
  pdpte <- step LvlPDPTE (next_or_frame_base pml4e)
                (PDPTE.GET_INDEX virtual_address) ;;
  if is_leaf pdpte
  then ret (resolve pdpte virtual_address VA.PAGE_OFFSET_1GB_MASK Page1GiB)
  else
    pde <- step LvlPDE (next_or_frame_base pdpte)
                (PDE.GET_INDEX virtual_address) ;;
    if is_leaf pde
    then ret (resolve pde virtual_address VA.PAGE_OFFSET_2MB_MASK Page2MiB)
    else
      pte <- step LvlPTE (next_or_frame_base pde)
                  (PTE.GET_INDEX virtual_address) ;;
      ret (resolve pte virtual_address VA.PAGE_OFFSET_4KB_MASK Page4KiB).

(** Modelled from the spec: [translate(table_root, virtual_address,
    read)] of section 6; the header has no such function. *)
Definition translate (table_root virtual_address : Z) (w : World)
  : TranslationOutcome Cause * World :=
  match walk table_root virtual_address w with
  | (inl o, w') => (o, w')
  | (inr o, w') => (o, w')
  end.
End Walk.

(** A read capability that also records, in order, the addresses it was
    asked for: the reads a walk performs become part of its result. *)
Definition logged {World Cause : Type}
           (read_u64 : World -> Z -> (Cause + Z) * World)
  : World * list Z -> Z -> (Cause + Z) * (World * list Z) :=
  fun '(w, log) address =>
    let '(r, w') := read_u64 w address in (r, (w', log ++ [address])).

(** A pure physical memory as a read capability: no world, the cause of
    a failure is the address that could not be read. *)
Definition memory_read (mem : Z -> option Z) : unit -> Z -> (Z + Z) * unit :=
  fun _ address =>
    match mem address with
    | Some v => (inr v, tt)
    | None => (inl address, tt)
    end.
(** A read capability over a pure memory in which the use number
    [failing_use] (counted from 0) fails, whatever the address: the world
    is the number of uses so far, the cause of a failure that number. *)
Definition read_failing_at (failing_use : nat) (mem : Z -> option Z)
  : nat -> Z -> (nat + Z) * nat :=
  fun uses address =>
    if Nat.eqb uses failing_use then (inl uses, S uses)
    else match mem address with
         | Some v => (inr v, S uses)
         | None => (inl uses, S uses)
         end.

(** A small physical memory with one 4 KiB mapping: the PML4 at [0x1000],
    then tables at [0x2000], [0x3000] and [0x4000], each used at index 1,
    and the frame [0x5000]; the PTE also has XD (bit 63) set. *)
Definition example_memory (address : Z) : option Z :=
  if address =? 0x1008 then Some 0x2003
  else if address =? 0x2008 then Some 0x3003
  else if address =? 0x3008 then Some 0x4003
  else if address =? 0x4008 then Some 0x8000000000005003
  else None.

(** The virtual address with index 1 at every level and offset [0xABC]. *)
Definition example_va : Z := 0x8040201ABC.
End Walker.

(** ** Vocabulary for the layout as a whole *)

Module Layout.
Import PSE.

(** The flag constants of each structure, as the header lists them.  A
    large-page entry has the flags of its level and those of its [GB] or
    [MB] variant. *)
Definition CR3_flags : list Z := [CR3.PWT; CR3.PCD].

Definition PML4E_flags : list Z :=
  [PML4E.PRESENT; PML4E.RW; PML4E.US; PML4E.PWT; PML4E.PCD; PML4E.A;
   PML4E.R; PML4E.XD].

Definition PDPTE_flags : list Z :=
  [PDPTE.PRESENT; PDPTE.RW; PDPTE.US; PDPTE.PWT; PDPTE.PCD; PDPTE.A;
   PDPTE.PS; PDPTE.R; PDPTE.XD].

Definition PDPTE_GB_flags : list Z :=
  PDPTE_flags ++ [PDPTE.GB.D; PDPTE.GB.G; PDPTE.GB.PAT; PDPTE.GB.PKE].

Definition PDE_flags : list Z :=
  [PDE.PRESENT; PDE.RW; PDE.US; PDE.PWT; PDE.PCD; PDE.A; PDE.PS; PDE.R;
   PDE.XD].

Definition PDE_MB_flags : list Z :=
  PDE_flags ++ [PDE.MB.D; PDE.MB.G; PDE.MB.PAT; PDE.MB.PKE].

Definition PTE_flags : list Z :=
  [PTE.PRESENT; PTE.RW; PTE.US; PTE.PWT; PTE.PCD; PTE.A; PTE.D; PTE.PAT;
   PTE.G; PTE.R; PTE.PKE; PTE.XD].

(** A constant that is one bit of a [std::uint64_t]. *)
Definition single_bit (f : Z) : Prop := exists n, 0 <= n < 64 /\ f = 2 ^ n.

(** [F] gives the same result whether the flag [f] is set ([e | f]) or
    cleared ([e & ~f]) in its argument. *)
Definition flag_blind (F : Z -> Z) (f : Z) : Prop :=
  forall e, F (Z.lor e f) = F e /\ F (Z.ldiff e f) = F e.

(** The virtual address with the given four indices and page offset: each
    index shifted to its [VA::*_INDEX] position, all OR-ed together. *)
Definition join_va (pml4_index pdpte_index pde_index pte_index offset : Z) : Z :=
  Z.lor (Z.lor (Z.lor (Z.lor
    (shl64 pml4_index VA.PML4E_INDEX)
    (shl64 pdpte_index VA.PDPTE_INDEX))
    (shl64 pde_index VA.PDE_INDEX))
    (shl64 pte_index VA.PTE_INDEX))
    offset.
End Layout.

(** * Properties *)

Import PSE.

(** ** Bit-level facts about masks and fields *)

Section Bits.

Lemma testbit_field_mask (lo w i : Z) :
  0 <= lo -> 0 <= w ->
  Z.testbit (field_mask lo w) i = (lo <=? i) && (i <? lo + w).
Proof.
  intros Hlo Hw. unfold field_mask.
  destruct (Z.ltb_spec i 0) as [Hneg | Hpos].
  - rewrite Z.testbit_neg_r by assumption.
    symmetry. apply andb_false_intro1. apply Z.leb_gt. lia.
  - rewrite Z.shiftl_spec by assumption.
    destruct (Z.leb_spec lo i) as [Hle | Hgt]; cbn [andb].
    + rewrite Z.testbit_ones_nonneg by lia.
      destruct (Z.ltb_spec (i - lo) w), (Z.ltb_spec i (lo + w)); lia || reflexivity.
    + apply Z.testbit_neg_r. lia.
Qed.

Lemma TABLE_BASE_MASK_field : TABLE_BASE_MASK = field_mask 12 40.
Proof. reflexivity. Qed.

Lemma GB_MASK_field : PDPTE.GB.PHYS_ADDRESS_MASK = field_mask 30 22.
Proof. reflexivity. Qed.

Lemma MB_MASK_field : PDE.MB.PHYS_ADDRESS_MASK = field_mask 21 31.
Proof. reflexivity. Qed.

Lemma PSE_MASK_ones : VA.PSE_MASK = Z.ones 9.
Proof. reflexivity. Qed.

Lemma testbit_TABLE_BASE_MASK (i : Z) :
  Z.testbit TABLE_BASE_MASK i = (12 <=? i) && (i <? 52).
Proof. rewrite TABLE_BASE_MASK_field. apply testbit_field_mask; lia. Qed.

Lemma testbit_GB_MASK (i : Z) :
  Z.testbit PDPTE.GB.PHYS_ADDRESS_MASK i = (30 <=? i) && (i <? 52).
Proof. rewrite GB_MASK_field. apply testbit_field_mask; lia. Qed.

Lemma testbit_MB_MASK (i : Z) :
  Z.testbit PDE.MB.PHYS_ADDRESS_MASK i = (21 <=? i) && (i <? 52).
Proof. rewrite MB_MASK_field. apply testbit_field_mask; lia. Qed.

Lemma testbit_ones' (n i : Z) :
  0 <= n -> Z.testbit (Z.ones n) i = (0 <=? i) && (i <? n).
Proof.
  intros Hn. destruct (Z.leb_spec 0 i) as [Hpos | Hneg]; cbn [andb].
  - apply Z.testbit_ones_nonneg; lia.
  - apply Z.testbit_neg_r. lia.
Qed.

(** A non-negative number with no bit set from [n] upwards is below [2^n]. *)
Lemma bits_above_bound (x n : Z) :
  0 <= n -> 0 <= x ->
  (forall i, n <= i -> Z.testbit x i = false) ->
  x < 2 ^ n.
Proof.
  intros Hn Hx Hbits.
  destruct (Z.eq_dec x 0) as [-> | Hnz].
  - apply Z.pow_pos_nonneg; lia.
  - apply Z.log2_lt_pow2; [lia |].
    destruct (Z.lt_ge_cases (Z.log2 x) n) as [Hlt | Hge]; [assumption |].
    specialize (Hbits (Z.log2 x) Hge).
    rewrite Z.bit_log2 in Hbits by lia. discriminate.
Qed.

(** Wrapping does nothing to a value that is already a [std::uint64_t]. *)
Lemma wrap64_small (x : Z) : is_u64 x -> wrap64 x = x.
Proof. intros H. unfold wrap64. apply Z.mod_small. exact H. Qed.

Lemma testbit_wrap64 (x i : Z) :
  Z.testbit (wrap64 x) i = Z.testbit x i && (i <? 64).
Proof.
  unfold wrap64.
  destruct (Z.ltb_spec i 64) as [Hlt | Hge].
  - rewrite andb_true_r.
    destruct (Z.ltb_spec i 0) as [Hneg | Hpos].
    + now rewrite !Z.testbit_neg_r by assumption.
    + apply Z.mod_pow2_bits_low. lia.
  - rewrite andb_false_r. apply Z.mod_pow2_bits_high. lia.
Qed.

End Bits.

Section Arithmetic.

Lemma field_mask_nonneg (lo w : Z) : 0 <= lo -> 0 <= w -> 0 <= field_mask lo w.
Proof.
  intros Hlo Hw. unfold field_mask. apply Z.shiftl_nonneg.
  rewrite Z.ones_equiv. pose proof (Z.pow_pos_nonneg 2 w). lia.
Qed.

(** Masking with a field keeps a value inside [0, 2^(lo+w)). *)
Lemma land_field_mask_bounds (x lo w : Z) :
  0 <= lo -> 0 <= w -> 0 <= Z.land x (field_mask lo w) < 2 ^ (lo + w).
Proof.
  intros Hlo Hw.
  assert (Hnn : 0 <= Z.land x (field_mask lo w)).
  { apply Z.land_nonneg. right. apply field_mask_nonneg; assumption. }
  split; [exact Hnn |].
  apply bits_above_bound; [lia | exact Hnn |].
  intros i Hi. rewrite Z.land_spec, testbit_field_mask by assumption.
  destruct (Z.ltb_spec i (lo + w)); [lia |].
  now rewrite !andb_false_r.
Qed.

(** Masking with a field clears every bit below [lo]. *)
Lemma land_field_mask_aligned (x lo w : Z) :
  0 <= lo -> 0 <= w -> Z.land x (field_mask lo w) mod 2 ^ lo = 0.
Proof.
  intros Hlo Hw. rewrite <- Z.land_ones by assumption.
  apply Z.bits_inj'. intros i Hi.
  rewrite !Z.land_spec, testbit_field_mask, testbit_ones', Z.bits_0 by assumption.
  destruct (Z.leb_spec lo i), (Z.ltb_spec i lo); try lia;
    cbn [andb]; now rewrite ?andb_false_r.
Qed.

(** Masking with [n] low ones keeps a value inside [0, 2^n). *)
Lemma land_ones_bounds (x n : Z) : 0 <= n -> 0 <= Z.land x (Z.ones n) < 2 ^ n.
Proof.
  intros Hn. rewrite Z.land_ones by assumption.
  apply Z.mod_pos_bound. apply Z.pow_pos_nonneg; lia.
Qed.

(** OR-ing an offset below [2^n] into a [2^n]-aligned base adds it. *)
Lemma lor_aligned_add (base off n : Z) :
  0 <= n -> base mod 2 ^ n = 0 -> 0 <= off < 2 ^ n ->
  Z.lor base off = base + off.
Proof.
  intros Hn Hbase Hoff.
  assert (Hdisj : Z.land base off = 0).
  { apply Z.bits_inj'. intros i Hi.
    rewrite Z.land_spec, Z.bits_0.
    destruct (Z.lt_ge_cases i n) as [Hlt | Hge].
    - rewrite <- (Z.mod_pow2_bits_low base n i) by lia.
      now rewrite Hbase, Z.bits_0.
    - rewrite <- (Z.mod_small off (2 ^ n)) by assumption.
      rewrite Z.mod_pow2_bits_high by lia. apply andb_false_r. }
  rewrite Z.add_nocarry_lxor by assumption.
  symmetry. apply Z.lxor_lor. assumption.
Qed.

Lemma below_2_52_phys52 (a : Z) : 0 <= a < 2 ^ 52 -> phys52 a.
Proof.
  intros Ha. split.
  - unfold is_u64. lia.
  - change ABOVE_PHYS_52 with (field_mask 52 12).
    apply Z.bits_inj'. intros i Hi.
    rewrite Z.land_spec, testbit_field_mask, Z.bits_0 by lia.
    destruct (Z.leb_spec 52 i) as [Hge | Hlt]; cbn [andb].
    + rewrite <- (Z.mod_small a (2 ^ 52)) by assumption.
      now rewrite Z.mod_pow2_bits_high by lia.
    + apply andb_false_r.
Qed.

End Arithmetic.

(** ** Tactics for goals about single bits *)

(** Decide every integer comparison that the goal branches on. *)
Ltac split_cmp :=
  repeat match goal with
         | |- context [?a <=? ?b] => destruct (Z.leb_spec a b)
         | |- context [?a <? ?b] => destruct (Z.ltb_spec a b)
         end;
  try lia.

(** ** The masks *)

(** C8: the 1 GiB leaf mask keeps exactly bits 51:30 and the 2 MiB leaf
    mask exactly bits 51:21, where the table mask keeps bits 51:12; hence
    a masked 1 GiB (2 MiB) leaf entry has its low 30 (21) bits clear. *)
Theorem C8_leaf_masks (entry i : Z) :
  PDPTE.GB.PHYS_ADDRESS_MASK = 0x000FFFFFC0000000 /\
  PDE.MB.PHYS_ADDRESS_MASK = 0x000FFFFFFFE00000 /\
  Z.testbit PDPTE.GB.PHYS_ADDRESS_MASK i = (30 <=? i) && (i <=? 51) /\
  Z.testbit PDE.MB.PHYS_ADDRESS_MASK i = (21 <=? i) && (i <=? 51) /\
  Z.testbit TABLE_BASE_MASK i = (12 <=? i) && (i <=? 51) /\
  Z.land (Z.land entry PDPTE.GB.PHYS_ADDRESS_MASK) (Z.ones 30) = 0 /\
  Z.land (Z.land entry PDE.MB.PHYS_ADDRESS_MASK) (Z.ones 21) = 0.
Proof.
  repeat split; try reflexivity.
  - rewrite testbit_GB_MASK. split_cmp; reflexivity.
  - rewrite testbit_MB_MASK. split_cmp; reflexivity.
  - rewrite testbit_TABLE_BASE_MASK. split_cmp; reflexivity.
  - rewrite Z.land_ones by lia. rewrite GB_MASK_field.
    apply (land_field_mask_aligned entry 30 22); lia.
  - rewrite Z.land_ones by lia. rewrite MB_MASK_field.
    apply (land_field_mask_aligned entry 21 31); lia.
Qed.

(** C7: [TABLE_BASE_MASK] is [0x000FFFFFFFFFF000], that is exactly bits
    51:12, and each of the four [GET_TABLE_BASE] (on CR3, on a PML4E, on a
    PDPTE, on a PDE) is the input under that mask, with its low 12 bits
    zero. *)
Theorem C7_table_base (x i : Z) :
  is_u64 x ->
  TABLE_BASE_MASK = 0x000FFFFFFFFFF000 /\
  Z.testbit TABLE_BASE_MASK i = (12 <=? i) && (i <=? 51) /\
  (PML4E.GET_TABLE_BASE x = Z.land x TABLE_BASE_MASK /\
   PDPTE.GET_TABLE_BASE x = Z.land x TABLE_BASE_MASK /\
   PDE.GET_TABLE_BASE x = Z.land x TABLE_BASE_MASK /\
   PTE.GET_TABLE_BASE x = Z.land x TABLE_BASE_MASK) /\
  (Z.land (PML4E.GET_TABLE_BASE x) 0xFFF = 0 /\
   Z.land (PDPTE.GET_TABLE_BASE x) 0xFFF = 0 /\
   Z.land (PDE.GET_TABLE_BASE x) 0xFFF = 0 /\
   Z.land (PTE.GET_TABLE_BASE x) 0xFFF = 0).
Proof.
  intros _.
  assert (Hlow : Z.land (Z.land x TABLE_BASE_MASK) 0xFFF = 0).
  { change 0xFFF with (Z.ones 12). rewrite Z.land_ones by lia.
    rewrite TABLE_BASE_MASK_field.
    apply (land_field_mask_aligned x 12 40); lia. }
  split; [reflexivity |]. split.
  - rewrite testbit_TABLE_BASE_MASK. split_cmp; reflexivity.
  - split; repeat split; solve [reflexivity | exact Hlow].
Qed.

Lemma C7_table_base_witness :
  is_u64 0x80000000DEADBEEF /\
  (TABLE_BASE_MASK = 0x000FFFFFFFFFF000 /\
   Z.testbit TABLE_BASE_MASK 12 = (12 <=? 12) && (12 <=? 51) /\
   (PML4E.GET_TABLE_BASE 0x80000000DEADBEEF
    = Z.land 0x80000000DEADBEEF TABLE_BASE_MASK /\
    PDPTE.GET_TABLE_BASE 0x80000000DEADBEEF
    = Z.land 0x80000000DEADBEEF TABLE_BASE_MASK /\
    PDE.GET_TABLE_BASE 0x80000000DEADBEEF
    = Z.land 0x80000000DEADBEEF TABLE_BASE_MASK /\
    PTE.GET_TABLE_BASE 0x80000000DEADBEEF
    = Z.land 0x80000000DEADBEEF TABLE_BASE_MASK) /\
   (Z.land (PML4E.GET_TABLE_BASE 0x80000000DEADBEEF) 0xFFF = 0 /\
    Z.land (PDPTE.GET_TABLE_BASE 0x80000000DEADBEEF) 0xFFF = 0 /\
    Z.land (PDE.GET_TABLE_BASE 0x80000000DEADBEEF) 0xFFF = 0 /\
    Z.land (PTE.GET_TABLE_BASE 0x80000000DEADBEEF) 0xFFF = 0)).
Proof.
  split; [unfold is_u64; lia |].
  apply (C7_table_base 0x80000000DEADBEEF 12). unfold is_u64. lia.
Defined.

(** ** The index extractors *)

(** C9: each of the four [GET_INDEX] returns a value between 0 and 511. *)
Theorem C9_index_range (virtual_address : Z) :
  is_u64 virtual_address ->
  0 <= PML4E.GET_INDEX virtual_address <= 511 /\
  0 <= PDPTE.GET_INDEX virtual_address <= 511 /\
  0 <= PDE.GET_INDEX virtual_address <= 511 /\
  0 <= PTE.GET_INDEX virtual_address <= 511.
Proof.
  intros _.
  unfold PML4E.GET_INDEX, PDPTE.GET_INDEX, PDE.GET_INDEX, PTE.GET_INDEX.
  rewrite PSE_MASK_ones.
  pose proof (land_ones_bounds (Z.shiftr virtual_address VA.PML4E_INDEX) 9).
  pose proof (land_ones_bounds (Z.shiftr virtual_address VA.PDPTE_INDEX) 9).
  pose proof (land_ones_bounds (Z.shiftr virtual_address VA.PDE_INDEX) 9).
  pose proof (land_ones_bounds (Z.shiftr virtual_address VA.PTE_INDEX) 9).
  change (2 ^ 9) with 512 in *. lia.
Qed.

Lemma C9_index_range_witness :
  is_u64 0xFFFFFFFFFFFFFFFF /\
  (0 <= PML4E.GET_INDEX 0xFFFFFFFFFFFFFFFF <= 511 /\
   0 <= PDPTE.GET_INDEX 0xFFFFFFFFFFFFFFFF <= 511 /\
   0 <= PDE.GET_INDEX 0xFFFFFFFFFFFFFFFF <= 511 /\
   0 <= PTE.GET_INDEX 0xFFFFFFFFFFFFFFFF <= 511).
Proof.
  split; [unfold is_u64; lia |].
  apply (C9_index_range 0xFFFFFFFFFFFFFFFF). unfold is_u64. lia.
Defined.

(** The bits of an index put back at its place: exactly the nine bits of
    the virtual address from [s] upwards. *)
Lemma testbit_index_field (s virtual_address i : Z) :
  0 <= s -> s + 9 <= 64 -> 0 <= i ->
  Z.testbit (shl64 (Z.land (Z.shiftr virtual_address s) VA.PSE_MASK) s) i
  = (s <=? i) && (i <? s + 9) && Z.testbit virtual_address i.
Proof.
  intros Hs Hs9 Hi. unfold shl64.
  rewrite testbit_wrap64, Z.shiftl_spec by assumption.
  destruct (Z.leb_spec s i) as [Hle | Hgt]; cbn [andb].
  - rewrite Z.land_spec, Z.shiftr_spec, PSE_MASK_ones, testbit_ones' by lia.
    replace (i - s + s) with i by lia.
    split_cmp; cbn [andb]; rewrite ?andb_false_r, ?andb_true_r; reflexivity.
  - rewrite Z.testbit_neg_r by lia. reflexivity.
Qed.

(** C2: the four indices shifted back to bits 47:39, 38:30, 29:21 and
    20:12, OR-ed with the low 12 bits, give back the low 48 bits of the
    virtual address. *)
Theorem C2_field_split_roundtrip (virtual_address : Z) :
  is_u64 virtual_address ->
  Z.lor (Z.lor (Z.lor (Z.lor
    (shl64 (PML4E.GET_INDEX virtual_address) 39)
    (shl64 (PDPTE.GET_INDEX virtual_address) 30))
    (shl64 (PDE.GET_INDEX virtual_address) 21))
    (shl64 (PTE.GET_INDEX virtual_address) 12))
    (Z.land virtual_address 0xFFF)
  = Z.land virtual_address 0xFFFFFFFFFFFF.
Proof.
  intros _.
  unfold PML4E.GET_INDEX, PDPTE.GET_INDEX, PDE.GET_INDEX, PTE.GET_INDEX,
    VA.PML4E_INDEX, VA.PDPTE_INDEX, VA.PDE_INDEX, VA.PTE_INDEX.
  change 0xFFF with (Z.ones 12). change 0xFFFFFFFFFFFF with (Z.ones 48).
  apply Z.bits_inj'. intros i Hi.
  rewrite !Z.lor_spec, !Z.land_spec, !testbit_index_field by lia.
  rewrite !testbit_ones' by lia.
  split_cmp; cbn [andb orb]; rewrite ?andb_false_r, ?andb_true_r, ?orb_false_r;
    reflexivity.
Qed.

Lemma C2_field_split_roundtrip_witness :
  is_u64 0xFFFF8123456789AB /\
  Z.lor (Z.lor (Z.lor (Z.lor
    (shl64 (PML4E.GET_INDEX 0xFFFF8123456789AB) 39)
    (shl64 (PDPTE.GET_INDEX 0xFFFF8123456789AB) 30))
    (shl64 (PDE.GET_INDEX 0xFFFF8123456789AB) 21))
    (shl64 (PTE.GET_INDEX 0xFFFF8123456789AB) 12))
    (Z.land 0xFFFF8123456789AB 0xFFF)
  = Z.land 0xFFFF8123456789AB 0xFFFFFFFFFFFF.
Proof.
  split; [unfold is_u64; lia |].
  apply (C2_field_split_roundtrip 0xFFFF8123456789AB). unfold is_u64. lia.
Defined.

(** ** Entry addresses *)

(** The shape shared by the four entry-address [GET_ADDRESS]: no wrap in
    the multiplication, and base and scaled index do not overlap. *)
Lemma entry_address_shape (table index : Z) :
  0 <= index < 512 ->
  entry_address_in_table (Z.land table TABLE_BASE_MASK) index
    (Z.lor (Z.land table TABLE_BASE_MASK) (mul64 index 8)).
Proof.
  intros Hidx.
  assert (Hmul : mul64 index 8 = index * 8).
  { unfold mul64. apply wrap64_small. unfold is_u64. lia. }
  assert (Hal : Z.land table TABLE_BASE_MASK mod 4096 = 0).
  { rewrite TABLE_BASE_MASK_field.
    exact (land_field_mask_aligned table 12 40 ltac:(lia) ltac:(lia)). }
  assert (Hadd : Z.lor (Z.land table TABLE_BASE_MASK) (index * 8)
                 = Z.land table TABLE_BASE_MASK + index * 8).
  { apply (lor_aligned_add _ _ 12); [lia | exact Hal |].
    change (2 ^ 12) with 4096. lia. }
  rewrite Hmul. unfold entry_address_in_table.
  rewrite Hadd.
  repeat split; try lia; try assumption.
  revert Hal. generalize (Z.land table TABLE_BASE_MASK). intros base Hal.
  Z.div_mod_to_equations. lia.
Qed.

Lemma index_below_512 (virtual_address s : Z) :
  0 <= Z.land (Z.shiftr virtual_address s) VA.PSE_MASK < 512.
Proof. rewrite PSE_MASK_ones. exact (land_ones_bounds _ 9 ltac:(lia)). Qed.

(** C3: at each level, [GET_ADDRESS] is the page-aligned table base (the
    input under [TABLE_BASE_MASK]) OR-ed with eight times an index below
    512; it is 8-byte aligned and the entry lies inside the 4 KiB table
    that starts at the base. *)
Theorem C3_entry_address (table virtual_address : Z) :
  is_u64 table -> is_u64 virtual_address ->
  entry_address_in_table (Z.land table TABLE_BASE_MASK)
    (PML4E.GET_INDEX virtual_address) (PML4E.GET_ADDRESS table virtual_address) /\
  entry_address_in_table (Z.land table TABLE_BASE_MASK)
    (PDPTE.GET_INDEX virtual_address) (PDPTE.GET_ADDRESS table virtual_address) /\
  entry_address_in_table (Z.land table TABLE_BASE_MASK)
    (PDE.GET_INDEX virtual_address) (PDE.GET_ADDRESS table virtual_address) /\
  entry_address_in_table (Z.land table TABLE_BASE_MASK)
    (PTE.GET_INDEX virtual_address) (PTE.GET_ADDRESS table virtual_address).
Proof.
  intros _ _.
  split; [| split; [| split]]; apply entry_address_shape; apply index_below_512.
Qed.

Lemma C3_entry_address_witness :
  is_u64 0x8000000012345FFF /\ is_u64 0xFFFFFFFFFFFFFFFF /\
  (entry_address_in_table (Z.land 0x8000000012345FFF TABLE_BASE_MASK)
     (PML4E.GET_INDEX 0xFFFFFFFFFFFFFFFF)
     (PML4E.GET_ADDRESS 0x8000000012345FFF 0xFFFFFFFFFFFFFFFF) /\
   entry_address_in_table (Z.land 0x8000000012345FFF TABLE_BASE_MASK)
     (PDPTE.GET_INDEX 0xFFFFFFFFFFFFFFFF)
     (PDPTE.GET_ADDRESS 0x8000000012345FFF 0xFFFFFFFFFFFFFFFF) /\
   entry_address_in_table (Z.land 0x8000000012345FFF TABLE_BASE_MASK)
     (PDE.GET_INDEX 0xFFFFFFFFFFFFFFFF)
     (PDE.GET_ADDRESS 0x8000000012345FFF 0xFFFFFFFFFFFFFFFF) /\
   entry_address_in_table (Z.land 0x8000000012345FFF TABLE_BASE_MASK)
     (PTE.GET_INDEX 0xFFFFFFFFFFFFFFFF)
     (PTE.GET_ADDRESS 0x8000000012345FFF 0xFFFFFFFFFFFFFFFF)).
Proof.
  split; [unfold is_u64; lia |]. split; [unfold is_u64; lia |].
  apply (C3_entry_address 0x8000000012345FFF 0xFFFFFFFFFFFFFFFF);
    unfold is_u64; lia.
Defined.

(** ** Leaf addresses *)

Lemma testbit_leaf_address (entry virtual_address lo w i : Z) :
  0 <= lo -> 0 <= w ->
  Z.testbit (Z.lor (Z.land entry (field_mask lo w))
                   (Z.land virtual_address (Z.ones lo))) i
  = (0 <=? i) &&
    (if i <? lo then Z.testbit virtual_address i
     else (i <? lo + w) && Z.testbit entry i).
Proof.
  intros Hlo Hw.
  rewrite Z.lor_spec, !Z.land_spec, testbit_field_mask, testbit_ones' by assumption.
  split_cmp; cbn [andb orb];
    rewrite ?andb_false_r, ?andb_true_r, ?orb_false_r; reflexivity.
Qed.

(** C1: each leaf [GET_ADDRESS] is the entry under the leaf mask of its
    page size OR-ed with the virtual address under the offset mask of that
    size: the 1 GiB pair at a PDPTE, the 2 MiB pair at a PDE, and
    [TABLE_BASE_MASK] with [0xFFF] for a 4 KiB page.  Bit by bit: the
    offset bits come from the virtual address, the bits from there up to
    bit 51 from the entry, and nothing else is set. *)
Theorem C1_leaf_address (leaf_entry virtual_address i : Z) :
  is_u64 leaf_entry -> is_u64 virtual_address ->
  (PDPTE.GB.GET_ADDRESS leaf_entry virtual_address
   = Z.lor (Z.land leaf_entry 0x000FFFFFC0000000)
           (Z.land virtual_address 0x3FFFFFFF) /\
   PDE.MB.GET_ADDRESS leaf_entry virtual_address
   = Z.lor (Z.land leaf_entry 0x000FFFFFFFE00000)
           (Z.land virtual_address 0x1FFFFF) /\
   PE.GET_ADDRESS leaf_entry virtual_address
   = Z.lor (Z.land leaf_entry TABLE_BASE_MASK)
           (Z.land virtual_address 0xFFF)) /\
  (Z.testbit (PDPTE.GB.GET_ADDRESS leaf_entry virtual_address) i
   = (0 <=? i) && (if i <? 30 then Z.testbit virtual_address i
                   else (i <? 52) && Z.testbit leaf_entry i) /\
   Z.testbit (PDE.MB.GET_ADDRESS leaf_entry virtual_address) i
   = (0 <=? i) && (if i <? 21 then Z.testbit virtual_address i
                   else (i <? 52) && Z.testbit leaf_entry i) /\
   Z.testbit (PE.GET_ADDRESS leaf_entry virtual_address) i
   = (0 <=? i) && (if i <? 12 then Z.testbit virtual_address i
                   else (i <? 52) && Z.testbit leaf_entry i)).
Proof.
  intros _ _. split; [repeat split |].
  unfold PDPTE.GB.GET_ADDRESS, PDE.MB.GET_ADDRESS, PE.GET_ADDRESS,
    PTE.PHYS_ADDRESS_MASK.
  rewrite GB_MASK_field, MB_MASK_field, TABLE_BASE_MASK_field.
  change VA.PAGE_OFFSET_1GB_MASK with (Z.ones 30).
  change VA.PAGE_OFFSET_2MB_MASK with (Z.ones 21).
  change VA.PAGE_OFFSET_4KB_MASK with (Z.ones 12).
  repeat split.
  - exact (testbit_leaf_address leaf_entry virtual_address 30 22 i
             ltac:(lia) ltac:(lia)).
  - exact (testbit_leaf_address leaf_entry virtual_address 21 31 i
             ltac:(lia) ltac:(lia)).
  - exact (testbit_leaf_address leaf_entry virtual_address 12 40 i
             ltac:(lia) ltac:(lia)).
Qed.

Lemma C1_leaf_address_witness :
  is_u64 0x8000000040000083 /\ is_u64 0xFFFF800000001234 /\
  ((PDPTE.GB.GET_ADDRESS 0x8000000040000083 0xFFFF800000001234
    = Z.lor (Z.land 0x8000000040000083 0x000FFFFFC0000000)
            (Z.land 0xFFFF800000001234 0x3FFFFFFF) /\
    PDE.MB.GET_ADDRESS 0x8000000040000083 0xFFFF800000001234
    = Z.lor (Z.land 0x8000000040000083 0x000FFFFFFFE00000)
            (Z.land 0xFFFF800000001234 0x1FFFFF) /\
    PE.GET_ADDRESS 0x8000000040000083 0xFFFF800000001234
    = Z.lor (Z.land 0x8000000040000083 TABLE_BASE_MASK)
            (Z.land 0xFFFF800000001234 0xFFF)) /\
   (Z.testbit (PDPTE.GB.GET_ADDRESS 0x8000000040000083 0xFFFF800000001234) 30
    = (0 <=? 30) && (if 30 <? 30 then Z.testbit 0xFFFF800000001234 30
                     else (30 <? 52) && Z.testbit 0x8000000040000083 30) /\
    Z.testbit (PDE.MB.GET_ADDRESS 0x8000000040000083 0xFFFF800000001234) 30
    = (0 <=? 30) && (if 30 <? 21 then Z.testbit 0xFFFF800000001234 30
                     else (30 <? 52) && Z.testbit 0x8000000040000083 30) /\
    Z.testbit (PE.GET_ADDRESS 0x8000000040000083 0xFFFF800000001234) 30
    = (0 <=? 30) && (if 30 <? 12 then Z.testbit 0xFFFF800000001234 30
                     else (30 <? 52) && Z.testbit 0x8000000040000083 30))).
Proof.
  split; [unfold is_u64; lia |]. split; [unfold is_u64; lia |].
  apply (C1_leaf_address 0x8000000040000083 0xFFFF800000001234 30);
    unfold is_u64; lia.
Defined.

(** The spec's 1 GiB example: physical field [0x40000000], low 30 bits of
    the virtual address [0x00001234]. *)
Example GB_GET_ADDRESS_example :
  PDPTE.GB.GET_ADDRESS 0x8000000040000083 0xFFFF800000001234 = 0x40001234.
Proof. reflexivity. Qed.

(** The spec's 2 MiB example: physical field [0x00200000], low 21 bits of
    the virtual address [0x00000ABC]. *)
Example MB_GET_ADDRESS_example :
  PDE.MB.GET_ADDRESS 0x00000000002000E3 0x0000000000000ABC = 0x00200ABC.
Proof. reflexivity. Qed.

(** ** The 52-bit physical address limit *)

Lemma table_base_phys52 (x : Z) : phys52 (Z.land x TABLE_BASE_MASK).
Proof.
  apply below_2_52_phys52. rewrite TABLE_BASE_MASK_field.
  exact (land_field_mask_bounds x 12 40 ltac:(lia) ltac:(lia)).
Qed.

Lemma entry_address_phys52 (table index : Z) :
  0 <= index < 512 ->
  phys52 (Z.lor (Z.land table TABLE_BASE_MASK) (mul64 index 8)).
Proof.
  intros Hidx. apply below_2_52_phys52.
  destruct (entry_address_shape table index Hidx)
    as (Hal & _ & _ & Hadd & _ & Hlo & Hhi).
  pose proof (land_field_mask_bounds table 12 40 ltac:(lia) ltac:(lia)) as Hb.
  rewrite <- TABLE_BASE_MASK_field in Hb. change (2 ^ (12 + 40)) with (2 ^ 52) in Hb.
  revert Hal Hadd Hlo Hhi Hb.
  generalize (Z.lor (Z.land table TABLE_BASE_MASK) (mul64 index 8)).
  generalize (Z.land table TABLE_BASE_MASK). intros base address Hal Hadd Hlo Hhi Hb.
  change (2 ^ 52) with 4503599627370496 in *.
  Z.div_mod_to_equations. lia.
Qed.

Lemma leaf_address_phys52 (entry virtual_address lo w : Z) :
  0 <= lo -> 0 <= w -> lo + w = 52 ->
  phys52 (Z.lor (Z.land entry (field_mask lo w))
                (Z.land virtual_address (Z.ones lo))).
Proof.
  intros Hlo Hw Hsum. apply below_2_52_phys52. split.
  - apply Z.lor_nonneg. split.
    + apply (land_field_mask_bounds entry lo w); assumption.
    + apply (land_ones_bounds virtual_address lo); assumption.
  - apply bits_above_bound; [lia | |].
    + apply Z.lor_nonneg. split.
      * apply (land_field_mask_bounds entry lo w); assumption.
      * apply (land_ones_bounds virtual_address lo); assumption.
    + intros i Hi. rewrite testbit_leaf_address by assumption.
      split_cmp; cbn [andb]; reflexivity.
Qed.

(** C10: every address the helpers return (the four [GET_TABLE_BASE], the
    four entry-address [GET_ADDRESS], the three leaf [GET_ADDRESS]) is a
    [std::uint64_t] with bits 63:52 clear, whatever the high bits of the
    inputs. *)
Theorem C10_physical_address_52_bits (x virtual_address : Z) :
  is_u64 x -> is_u64 virtual_address ->
  (phys52 (PML4E.GET_TABLE_BASE x) /\ phys52 (PDPTE.GET_TABLE_BASE x) /\
   phys52 (PDE.GET_TABLE_BASE x) /\ phys52 (PTE.GET_TABLE_BASE x)) /\
  (phys52 (PML4E.GET_ADDRESS x virtual_address) /\
   phys52 (PDPTE.GET_ADDRESS x virtual_address) /\
   phys52 (PDE.GET_ADDRESS x virtual_address) /\
   phys52 (PTE.GET_ADDRESS x virtual_address)) /\
  (phys52 (PDPTE.GB.GET_ADDRESS x virtual_address) /\
   phys52 (PDE.MB.GET_ADDRESS x virtual_address) /\
   phys52 (PE.GET_ADDRESS x virtual_address)).
Proof.
  intros _ _. split; [| split].
  - split; [| split; [| split]]; apply table_base_phys52.
  - split; [| split; [| split]]; apply entry_address_phys52;
      apply index_below_512.
  - unfold PDPTE.GB.GET_ADDRESS, PDE.MB.GET_ADDRESS, PE.GET_ADDRESS,
      PTE.PHYS_ADDRESS_MASK.
    rewrite GB_MASK_field, MB_MASK_field, TABLE_BASE_MASK_field.
    split; [| split].
    + exact (leaf_address_phys52 x virtual_address 30 22
               ltac:(lia) ltac:(lia) ltac:(lia)).
    + exact (leaf_address_phys52 x virtual_address 21 31
               ltac:(lia) ltac:(lia) ltac:(lia)).
    + exact (leaf_address_phys52 x virtual_address 12 40
               ltac:(lia) ltac:(lia) ltac:(lia)).
Qed.

Lemma C10_physical_address_52_bits_witness :
  is_u64 0xFFFFFFFFFFFFFFFF /\ is_u64 0xFFFFFFFFFFFFFFFF /\
  ((phys52 (PML4E.GET_TABLE_BASE 0xFFFFFFFFFFFFFFFF) /\
    phys52 (PDPTE.GET_TABLE_BASE 0xFFFFFFFFFFFFFFFF) /\
    phys52 (PDE.GET_TABLE_BASE 0xFFFFFFFFFFFFFFFF) /\
    phys52 (PTE.GET_TABLE_BASE 0xFFFFFFFFFFFFFFFF)) /\
   (phys52 (PML4E.GET_ADDRESS 0xFFFFFFFFFFFFFFFF 0xFFFFFFFFFFFFFFFF) /\
    phys52 (PDPTE.GET_ADDRESS 0xFFFFFFFFFFFFFFFF 0xFFFFFFFFFFFFFFFF) /\
    phys52 (PDE.GET_ADDRESS 0xFFFFFFFFFFFFFFFF 0xFFFFFFFFFFFFFFFF) /\
    phys52 (PTE.GET_ADDRESS 0xFFFFFFFFFFFFFFFF 0xFFFFFFFFFFFFFFFF)) /\
   (phys52 (PDPTE.GB.GET_ADDRESS 0xFFFFFFFFFFFFFFFF 0xFFFFFFFFFFFFFFFF) /\
    phys52 (PDE.MB.GET_ADDRESS 0xFFFFFFFFFFFFFFFF 0xFFFFFFFFFFFFFFFF) /\
    phys52 (PE.GET_ADDRESS 0xFFFFFFFFFFFFFFFF 0xFFFFFFFFFFFFFFFF))).
Proof.
  split; [unfold is_u64; lia |]. split; [unfold is_u64; lia |].
  apply (C10_physical_address_52_bits 0xFFFFFFFFFFFFFFFF 0xFFFFFFFFFFFFFFFF);
    unfold is_u64; lia.
Defined.

(** ** Flag tests *)

(** Testing a value against a single-bit constant reads that bit. *)
Lemma to_bool_land_pow2 (entry n : Z) :
  0 <= n -> to_bool (Z.land entry (2 ^ n)) = Z.testbit entry n.
Proof.
  intros Hn. unfold to_bool.
  destruct (Z.testbit entry n) eqn:Hbit.
  - apply negb_true_iff. apply Z.eqb_neq. intros Hzero.
    assert (Hcontra : Z.testbit (Z.land entry (2 ^ n)) n = true).
    { rewrite Z.land_spec, Hbit, Z.pow2_bits_true by assumption. reflexivity. }
    rewrite Hzero, Z.bits_0 in Hcontra. discriminate.
  - apply negb_false_iff. apply Z.eqb_eq.
    apply Z.bits_inj'. intros i Hi.
    rewrite Z.land_spec, Z.pow2_bits_eqb, Z.bits_0 by assumption.
    destruct (Z.eqb_spec n i) as [<- | Hne].
    + rewrite Hbit. reflexivity.
    + apply andb_false_r.
Qed.

Lemma level_present_bit0 (level : Walker.Level) (entry : Z) :
  Walker.level_present level entry = Z.testbit entry 0.
Proof. destruct level; exact (to_bool_land_pow2 entry 0 ltac:(lia)). Qed.

(** C6: [PDPTE::IS_LARGE_PAGE] and [PDE::IS_LARGE_PAGE] are true exactly
    when bit 7 (PS) of the entry is set; the leaf test of the walk is that
    bit at those two levels, always true for a PTE and always false for a
    PML4E, whatever bit 7 of the entry is. *)
Theorem C6_large_page (entry : Z) :
  is_u64 entry ->
  (PDPTE.IS_LARGE_PAGE entry = true <-> Z.testbit entry 7 = true) /\
  (PDE.IS_LARGE_PAGE entry = true <-> Z.testbit entry 7 = true) /\
  Walker.level_is_leaf Walker.LvlPDPTE entry = Z.testbit entry 7 /\
  Walker.level_is_leaf Walker.LvlPDE entry = Z.testbit entry 7 /\
  Walker.level_is_leaf Walker.LvlPTE entry = true /\
  Walker.level_is_leaf Walker.LvlPML4 entry = false.
Proof.
  intros _.
  assert (Hgb : PDPTE.IS_LARGE_PAGE entry = Z.testbit entry 7).
  { exact (to_bool_land_pow2 entry 7 ltac:(lia)). }
  assert (Hmb : PDE.IS_LARGE_PAGE entry = Z.testbit entry 7).
  { exact (to_bool_land_pow2 entry 7 ltac:(lia)). }
  cbn [Walker.level_is_leaf]. rewrite Hgb, Hmb.
  repeat split; trivial.
Qed.

Lemma C6_large_page_witness :
  is_u64 0x8000000040000083 /\
  ((PDPTE.IS_LARGE_PAGE 0x8000000040000083 = true
    <-> Z.testbit 0x8000000040000083 7 = true) /\
   (PDE.IS_LARGE_PAGE 0x8000000040000083 = true
    <-> Z.testbit 0x8000000040000083 7 = true) /\
   Walker.level_is_leaf Walker.LvlPDPTE 0x8000000040000083
   = Z.testbit 0x8000000040000083 7 /\
   Walker.level_is_leaf Walker.LvlPDE 0x8000000040000083
   = Z.testbit 0x8000000040000083 7 /\
   Walker.level_is_leaf Walker.LvlPTE 0x8000000040000083 = true /\
   Walker.level_is_leaf Walker.LvlPML4 0x8000000040000083 = false).
Proof.
  split; [unfold is_u64; lia |].
  apply (C6_large_page 0x8000000040000083). unfold is_u64. lia.
Defined.

Example IS_LARGE_PAGE_set : PDPTE.IS_LARGE_PAGE 0x83 = true.
Proof. reflexivity. Qed.

Example IS_LARGE_PAGE_clear : PDE.IS_LARGE_PAGE 0xFFFFFFFFFFFFFF7F = false.
Proof. reflexivity. Qed.

(** ** The walk *)

Section WalkFacts.

Import Walker.

Context {World Cause : Type}.
Variable read_u64 : World -> Z -> (Cause + Z) * World.

(** A step whose read succeeds faults exactly when bit 0 of the entry is
    clear, and uses the read capability once. *)
Lemma step_read_ok (level : Level) (table_base index entry : Z) (w w' : World) :
  read_u64 w (compute_entry_address table_base index) = (inr entry, w') ->
  step read_u64 level table_base index w
  = if Z.testbit entry 0
    then (inr (decode level entry), w')
    else (inl (Fault level NotPresent), w').
Proof.
  intros Hread. unfold step, bind, read_entry. rewrite Hread.
  cbn [present decode]. rewrite level_present_bit0.
  destruct (Z.testbit entry 0); reflexivity.
Qed.

(** A step whose read fails stops with [ReadError] at its level. *)
Lemma step_read_failed (level : Level) (table_base index : Z) (cause : Cause)
      (w w' : World) :
  read_u64 w (compute_entry_address table_base index) = (inl cause, w') ->
  step read_u64 level table_base index w
  = (inl (Fault level (ReadError cause)), w').
Proof.
  intros Hread. unfold step, bind, read_entry. rewrite Hread. reflexivity.
Qed.

(** The logging capability answers as the one it wraps and appends the
    address to the log. *)
Lemma logged_read (address : Z) (w w' : World) (r : Cause + Z) (log : list Z) :
  read_u64 w address = (r, w') ->
  logged read_u64 (w, log) address = (r, (w', log ++ [address])).
Proof. intros Hread. unfold logged. rewrite Hread. reflexivity. Qed.

(** The entry address of the first step is the header's
    [PML4E::GET_ADDRESS]. *)
Lemma pml4_step_address (table_root virtual_address : Z) :
  compute_entry_address (PML4E.GET_TABLE_BASE table_root)
                        (PML4E.GET_INDEX virtual_address)
  = PML4E.GET_ADDRESS table_root virtual_address.
Proof. reflexivity. Qed.

(** After a PML4E, the entry address of the second step is the header's
    [PDPTE::GET_ADDRESS] of that entry. *)
Lemma pdpte_step_address (pml4e virtual_address : Z) :
  compute_entry_address (next_or_frame_base (decode LvlPML4 pml4e))
                        (PDPTE.GET_INDEX virtual_address)
  = PDPTE.GET_ADDRESS pml4e virtual_address.
Proof. reflexivity. Qed.

(** After a PDPTE with PS clear, the entry address of the third step is
    the header's [PDE::GET_ADDRESS] of that entry. *)
Lemma pde_step_address (pdpte virtual_address : Z) :
  Z.testbit pdpte 7 = false ->
  is_leaf (decode LvlPDPTE pdpte) = false /\
  compute_entry_address (next_or_frame_base (decode LvlPDPTE pdpte))
                        (PDE.GET_INDEX virtual_address)
  = PDE.GET_ADDRESS pdpte virtual_address.
Proof.
  intros Hps.
  assert (Hleaf : level_is_leaf LvlPDPTE pdpte = false).
  { cbn [level_is_leaf]. rewrite <- Hps.
    exact (to_bool_land_pow2 pdpte 7 ltac:(lia)). }
  unfold decode. cbn [is_leaf next_or_frame_base]. rewrite Hleaf.
  split; reflexivity.
Qed.

End WalkFacts.

(** C4: when the PML4 entry read for a virtual address has bit 0 (Present)
    clear, [translate] returns [Fault] at level PML4 with reason
    [NotPresent], whatever the other bits of the entry, the table root and
    the virtual address; the read capability has been used once. *)
Theorem C4_pml4e_not_present {World Cause : Type}
        (read_u64 : World -> Z -> (Cause + Z) * World)
        (table_root virtual_address pml4e : Z) (w w' : World) :
  read_u64 w (PML4E.GET_ADDRESS table_root virtual_address) = (inr pml4e, w') ->
  Z.testbit pml4e 0 = false ->
  Walker.translate read_u64 table_root virtual_address w
  = (Walker.Fault Walker.LvlPML4 Walker.NotPresent, w').
Proof.
  intros Hread Hbit.
  unfold Walker.translate, Walker.walk, Walker.bind.
  rewrite (step_read_ok read_u64 Walker.LvlPML4
             (PML4E.GET_TABLE_BASE table_root)
             (PML4E.GET_INDEX virtual_address) pml4e w w' Hread).
  rewrite Hbit. reflexivity.
Qed.

(** C5: when the reads of the PML4E and of the PDPTE succeed with present
    entries, the PDPTE is not a large page, and the read of the PDE fails,
    [translate] returns [Fault] at level PDE with reason [ReadError] (not
    [NotPresent]) and the world left by the failed read; under the logging
    capability the reads are exactly the three entry addresses, so no read
    follows the failure. *)
Theorem C5_read_error_at_pde {World Cause : Type}
        (read_u64 : World -> Z -> (Cause + Z) * World)
        (table_root virtual_address pml4e pdpte : Z) (cause : Cause)
        (w0 w1 w2 w3 : World) (log : list Z) :
  read_u64 w0 (PML4E.GET_ADDRESS table_root virtual_address) = (inr pml4e, w1) ->
  Z.testbit pml4e 0 = true ->
  read_u64 w1 (PDPTE.GET_ADDRESS pml4e virtual_address) = (inr pdpte, w2) ->
  Z.testbit pdpte 0 = true ->
  Z.testbit pdpte 7 = false ->
  read_u64 w2 (PDE.GET_ADDRESS pdpte virtual_address) = (inl cause, w3) ->
  Walker.translate read_u64 table_root virtual_address w0
  = (Walker.Fault Walker.LvlPDE (Walker.ReadError cause), w3) /\
  Walker.translate (Walker.logged read_u64) table_root virtual_address (w0, log)
  = (Walker.Fault Walker.LvlPDE (Walker.ReadError cause),
     (w3, log ++ [PML4E.GET_ADDRESS table_root virtual_address;
                  PDPTE.GET_ADDRESS pml4e virtual_address;
                  PDE.GET_ADDRESS pdpte virtual_address])) /\
  Walker.ReadError cause <> Walker.NotPresent.
Proof.
  intros Hr1 Hp1 Hr2 Hp2 Hps Hr3.
  destruct (pde_step_address pdpte virtual_address Hps) as [Hleaf Haddr].
  assert (Hgen : forall (W : Type) (rd : W -> Z -> (Cause + Z) * W) (a b c d : W),
             rd a (PML4E.GET_ADDRESS table_root virtual_address) = (inr pml4e, b) ->
             rd b (PDPTE.GET_ADDRESS pml4e virtual_address) = (inr pdpte, c) ->
             rd c (PDE.GET_ADDRESS pdpte virtual_address) = (inl cause, d) ->
             Walker.translate rd table_root virtual_address a
             = (Walker.Fault Walker.LvlPDE (Walker.ReadError cause), d)).
  { intros W rd a b c d H1 H2 H3.
    unfold Walker.translate, Walker.walk, Walker.bind.
    rewrite (step_read_ok rd Walker.LvlPML4
               (PML4E.GET_TABLE_BASE table_root)
               (PML4E.GET_INDEX virtual_address) pml4e a b H1), Hp1.
    rewrite (step_read_ok rd Walker.LvlPDPTE
               (Walker.next_or_frame_base (Walker.decode Walker.LvlPML4 pml4e))
               (PDPTE.GET_INDEX virtual_address) pdpte b c H2), Hp2.
    rewrite Hleaf.
    rewrite <- Haddr in H3.
    rewrite (step_read_failed rd Walker.LvlPDE
               (Walker.next_or_frame_base (Walker.decode Walker.LvlPDPTE pdpte))
               (PDE.GET_INDEX virtual_address) cause c d H3).
    reflexivity. }
  split; [| split].
  - exact (Hgen World read_u64 w0 w1 w2 w3 Hr1 Hr2 Hr3).
  - apply (Hgen _ (Walker.logged read_u64) (w0, log)
             (w1, log ++ [PML4E.GET_ADDRESS table_root virtual_address])
             (w2, (log ++ [PML4E.GET_ADDRESS table_root virtual_address])
                    ++ [PDPTE.GET_ADDRESS pml4e virtual_address])).
    + apply logged_read. exact Hr1.
    + apply logged_read. exact Hr2.
    + rewrite (logged_read read_u64 _ w2 w3 (inl cause) _ Hr3).
      rewrite <- !app_assoc. reflexivity.
  - discriminate.
Qed.

(** The example memory resolves the example address through all four
    levels to the frame [0x5000] plus the offset, reading four entries. *)
Example translate_example_memory :
  Walker.translate (Walker.logged (Walker.memory_read Walker.example_memory))
                   0x1000 Walker.example_va (tt, [])
  = (Walker.Resolved 0x5ABC Walker.Page4KiB 0x8000000000005003,
     (tt, [0x1008; 0x2008; 0x3008; 0x4008])).
Proof. vm_compute. reflexivity. Qed.

Lemma C4_pml4e_not_present_witness :
  Walker.memory_read (fun _ => Some 0xFFFFFFFFFFFFFFFE) tt
    (PML4E.GET_ADDRESS 0x1000 Walker.example_va)
  = (inr 0xFFFFFFFFFFFFFFFE, tt) /\
  Z.testbit 0xFFFFFFFFFFFFFFFE 0 = false /\
  Walker.translate (Walker.memory_read (fun _ => Some 0xFFFFFFFFFFFFFFFE))
                   0x1000 Walker.example_va tt
  = (Walker.Fault Walker.LvlPML4 Walker.NotPresent, tt).
Proof.
  split; [reflexivity |]. split; [reflexivity |].
  apply (C4_pml4e_not_present
           (Walker.memory_read (fun _ => Some 0xFFFFFFFFFFFFFFFE))
           0x1000 Walker.example_va 0xFFFFFFFFFFFFFFFE tt tt);
    reflexivity.
Defined.

Lemma C5_read_error_at_pde_witness :
  (Walker.read_failing_at 2 Walker.example_memory 0%nat
     (PML4E.GET_ADDRESS 0x1000 Walker.example_va) = (inr 0x2003, 1%nat) /\
   Z.testbit 0x2003 0 = true /\
   Walker.read_failing_at 2 Walker.example_memory 1%nat
     (PDPTE.GET_ADDRESS 0x2003 Walker.example_va) = (inr 0x3003, 2%nat) /\
   Z.testbit 0x3003 0 = true /\
   Z.testbit 0x3003 7 = false /\
   Walker.read_failing_at 2 Walker.example_memory 2%nat
     (PDE.GET_ADDRESS 0x3003 Walker.example_va) = (inl 2%nat, 3%nat)) /\
  (Walker.translate (Walker.read_failing_at 2 Walker.example_memory)
                    0x1000 Walker.example_va 0%nat
   = (Walker.Fault Walker.LvlPDE (Walker.ReadError 2%nat), 3%nat) /\
   Walker.translate
     (Walker.logged (Walker.read_failing_at 2 Walker.example_memory))
     0x1000 Walker.example_va (0%nat, [])
   = (Walker.Fault Walker.LvlPDE (Walker.ReadError 2%nat),
      (3%nat, [] ++ [PML4E.GET_ADDRESS 0x1000 Walker.example_va;
                     PDPTE.GET_ADDRESS 0x2003 Walker.example_va;
                     PDE.GET_ADDRESS 0x3003 Walker.example_va])) /\
   Walker.ReadError 2%nat <> Walker.NotPresent).
Proof.
  split; [repeat split |].
  apply (C5_read_error_at_pde
           (Walker.read_failing_at 2 Walker.example_memory)
           0x1000 Walker.example_va 0x2003 0x3003 2%nat
           0%nat 1%nat 2%nat 3%nat []);
    reflexivity.
Defined.

(** * Further properties of the header *)

(** ** Flags and address fields *)

Section Flags.

Import Layout.

(** Setting bits outside a mask does not change what the mask keeps. *)
Lemma land_lor_outside (e f m : Z) :
  Z.land f m = 0 -> Z.land (Z.lor e f) m = Z.land e m.
Proof.
  intros Hout. rewrite Z.land_lor_distr_l, Hout. apply Z.lor_0_r.
Qed.

(** Clearing bits outside a mask does not change what the mask keeps. *)
Lemma land_ldiff_outside (e f m : Z) :
  Z.land f m = 0 -> Z.land (Z.ldiff e f) m = Z.land e m.
Proof.
  intros Hout. apply Z.bits_inj'. intros i Hi.
  assert (Hbit : Z.testbit f i && Z.testbit m i = false).
  { rewrite <- Z.land_spec, Hout. apply Z.bits_0. }
  rewrite !Z.land_spec, Z.ldiff_spec.
  destruct (Z.testbit e i), (Z.testbit f i), (Z.testbit m i);
    cbn in *; congruence.
Qed.

(** A helper that only looks at its entry under a mask is blind to every
    flag outside that mask. *)
Lemma masked_flag_blind (G : Z -> Z) (m f : Z) :
  Z.land f m = 0 -> flag_blind (fun e => G (Z.land e m)) f.
Proof.
  intros Hout e. cbv beta.
  rewrite land_lor_outside, land_ldiff_outside by assumption.
  split; reflexivity.
Qed.

Ltac each_flag :=
  repeat first [apply Forall_nil | apply Forall_cons].

(** Every flag constant is a single bit of a 64-bit value ([1ull << 63]
    does not wrap), and no two flags of one structure share a bit; for the
    large-page entries that includes the flags of the [GB] / [MB] variant
    together with those of the level. *)
Theorem flags_single_distinct_bits :
  (Forall single_bit CR3_flags /\ NoDup CR3_flags) /\
  (Forall single_bit PML4E_flags /\ NoDup PML4E_flags) /\
  (Forall single_bit PDPTE_GB_flags /\ NoDup PDPTE_GB_flags) /\
  (Forall single_bit PDE_MB_flags /\ NoDup PDE_MB_flags) /\
  (Forall single_bit PTE_flags /\ NoDup PTE_flags).
Proof.
  assert (Hbit : forall n, 0 <= n < 64 -> single_bit (shl64 1 n)).
  { intros n Hn. exists n. split; [exact Hn |].
    unfold shl64. rewrite Z.shiftl_1_l. apply wrap64_small.
    unfold is_u64. split; [apply Z.pow_nonneg; lia |].
    apply Z.pow_lt_mono_r; lia. }
  repeat split;
    first [ each_flag; apply Hbit; lia
          | vm_compute;
            repeat (apply NoDup_cons;
                    [cbn [In]; intuition discriminate |]);
            apply NoDup_nil ].
Qed.

(** The table-pointer helpers are blind to the flags of the structure they
    are given: [PML4E::GET_TABLE_BASE] / [GET_ADDRESS] to the CR3 flags,
    the [PDPTE] ones to the PML4E flags, the [PDE] ones to the PDPTE flags
    (PS included) and the [PTE] ones to the PDE flags. *)
Theorem table_helpers_flag_blind (virtual_address : Z) :
  Forall (fun f => flag_blind PML4E.GET_TABLE_BASE f /\
                   flag_blind (fun e => PML4E.GET_ADDRESS e virtual_address) f)
         CR3_flags /\
  Forall (fun f => flag_blind PDPTE.GET_TABLE_BASE f /\
                   flag_blind (fun e => PDPTE.GET_ADDRESS e virtual_address) f)
         PML4E_flags /\
  Forall (fun f => flag_blind PDE.GET_TABLE_BASE f /\
                   flag_blind (fun e => PDE.GET_ADDRESS e virtual_address) f)
         PDPTE_flags /\
  Forall (fun f => flag_blind PTE.GET_TABLE_BASE f /\
                   flag_blind (fun e => PTE.GET_ADDRESS e virtual_address) f)
         PDE_flags.
Proof.
  repeat split; each_flag; split;
    match goal with
    | |- flag_blind _ ?f =>
        first
          [ exact (masked_flag_blind (fun b => b) TABLE_BASE_MASK f eq_refl)
          | exact (masked_flag_blind
                     (fun b => Z.lor b (mul64 (PML4E.GET_INDEX virtual_address) 8))
                     TABLE_BASE_MASK f eq_refl)
          | exact (masked_flag_blind
                     (fun b => Z.lor b (mul64 (PDPTE.GET_INDEX virtual_address) 8))
                     TABLE_BASE_MASK f eq_refl)
          | exact (masked_flag_blind
                     (fun b => Z.lor b (mul64 (PDE.GET_INDEX virtual_address) 8))
                     TABLE_BASE_MASK f eq_refl)
          | exact (masked_flag_blind
                     (fun b => Z.lor b (mul64 (PTE.GET_INDEX virtual_address) 8))
                     TABLE_BASE_MASK f eq_refl) ]
    end.
Qed.

(** The leaf helpers are blind to every flag of a leaf entry of their
    size: [PDPTE::GB::GET_ADDRESS] to the PDPTE and GB flags,
    [PDE::MB::GET_ADDRESS] to the PDE and MB flags, [PE::GET_ADDRESS] to
    the PTE flags. *)
Theorem leaf_helpers_flag_blind (virtual_address : Z) :
  Forall (flag_blind (fun e => PDPTE.GB.GET_ADDRESS e virtual_address))
         PDPTE_GB_flags /\
  Forall (flag_blind (fun e => PDE.MB.GET_ADDRESS e virtual_address))
         PDE_MB_flags /\
  Forall (flag_blind (fun e => PE.GET_ADDRESS e virtual_address))
         PTE_flags.
Proof.
  repeat split; each_flag.
  all: match goal with
       | |- flag_blind _ ?f =>
           first
             [ exact (masked_flag_blind
                        (fun b => Z.lor b (Z.land virtual_address
                                                  VA.PAGE_OFFSET_1GB_MASK))
                        PDPTE.GB.PHYS_ADDRESS_MASK f eq_refl)
             | exact (masked_flag_blind
                        (fun b => Z.lor b (Z.land virtual_address
                                                  VA.PAGE_OFFSET_2MB_MASK))
                        PDE.MB.PHYS_ADDRESS_MASK f eq_refl)
             | exact (masked_flag_blind
                        (fun b => Z.lor b (Z.land virtual_address
                                                  VA.PAGE_OFFSET_4KB_MASK))
                        PTE.PHYS_ADDRESS_MASK f eq_refl) ]
       end.
Qed.

(** The PAT flag of a large page is bit 12, inside [TABLE_BASE_MASK]: the
    table-pointer helper of the next level and the 4 KiB leaf helper keep
    it when given a large-page entry with PAT set, so their result is not
    the frame of that page. *)
Theorem large_page_PAT_inside_table_mask (entry virtual_address : Z) :
  Z.testbit (PDE.GET_TABLE_BASE (Z.lor entry PDPTE.GB.PAT)) 12 = true /\
  Z.testbit (PTE.GET_TABLE_BASE (Z.lor entry PDE.MB.PAT)) 12 = true /\
  Z.testbit (PE.GET_ADDRESS (Z.lor entry PDE.MB.PAT) virtual_address) 12 = true /\
  Z.testbit (PDPTE.GB.GET_ADDRESS (Z.lor entry PDPTE.GB.PAT) virtual_address) 12
  = Z.testbit virtual_address 12 /\
  Z.testbit (PDE.MB.GET_ADDRESS (Z.lor entry PDE.MB.PAT) virtual_address) 12
  = Z.testbit virtual_address 12.
Proof.
  unfold PDE.GET_TABLE_BASE, PTE.GET_TABLE_BASE, PE.GET_ADDRESS,
    PDPTE.GB.GET_ADDRESS, PDE.MB.GET_ADDRESS,
    PDPTE.PDE_ADDRESS_MASK, PDE.PTE_ADDRESS_MASK, PTE.PHYS_ADDRESS_MASK.
  change PDPTE.GB.PAT with (2 ^ 12). change PDE.MB.PAT with (2 ^ 12).
  rewrite !Z.lor_spec, !Z.land_spec, !Z.lor_spec,
    testbit_TABLE_BASE_MASK, testbit_GB_MASK, testbit_MB_MASK.
  rewrite Z.pow2_bits_true by lia.
  change (Z.testbit VA.PAGE_OFFSET_1GB_MASK 12) with true.
  change (Z.testbit VA.PAGE_OFFSET_2MB_MASK 12) with true.
  cbn. rewrite !orb_true_r, !andb_false_r, !andb_true_r. cbn.
  repeat split; reflexivity.
Qed.

End Flags.

(** ** Indices as arithmetic on the virtual address *)

Section Indices.

Import Layout.

(** Shift-and-mask is divide-and-remainder. *)
Lemma index_div_mod (virtual_address s : Z) :
  0 <= s ->
  Z.land (Z.shiftr virtual_address s) VA.PSE_MASK
  = (virtual_address / 2 ^ s) mod 512.
Proof.
  intros Hs. rewrite PSE_MASK_ones, Z.land_ones, Z.shiftr_div_pow2 by lia.
  reflexivity.
Qed.

Lemma GET_INDEX_div_mod (virtual_address : Z) :
  PML4E.GET_INDEX virtual_address = (virtual_address / 2 ^ 39) mod 512 /\
  PDPTE.GET_INDEX virtual_address = (virtual_address / 2 ^ 30) mod 512 /\
  PDE.GET_INDEX virtual_address = (virtual_address / 2 ^ 21) mod 512 /\
  PTE.GET_INDEX virtual_address = (virtual_address / 2 ^ 12) mod 512.
Proof.
  repeat split; apply index_div_mod; discriminate.
Qed.

(** An index below 512 shifted to a field position is a plain product. *)
Lemma shl64_index (index s : Z) :
  0 <= index < 512 -> 0 <= s <= 39 -> shl64 index s = index * 2 ^ s.
Proof.
  intros Hidx Hs. unfold shl64. rewrite Z.shiftl_mul_pow2 by lia.
  apply wrap64_small. unfold is_u64.
  assert (Hpow : 0 < 2 ^ s <= 2 ^ 39).
  { split; [apply Z.pow_pos_nonneg; lia | apply Z.pow_le_mono_r; lia]. }
  change (2 ^ 39) with 549755813888 in Hpow.
  change (2 ^ 64) with 18446744073709551616. nia.
Qed.

(** The joined address is the sum of its fields. *)
Lemma join_va_sum (i4 i3 i2 i1 offset : Z) :
  0 <= i4 < 512 -> 0 <= i3 < 512 -> 0 <= i2 < 512 -> 0 <= i1 < 512 ->
  0 <= offset < 4096 ->
  join_va i4 i3 i2 i1 offset
  = i4 * 2 ^ 39 + i3 * 2 ^ 30 + i2 * 2 ^ 21 + i1 * 2 ^ 12 + offset.
Proof.
  intros H4 H3 H2 H1 Hoff. unfold join_va.
  unfold VA.PML4E_INDEX, VA.PDPTE_INDEX, VA.PDE_INDEX, VA.PTE_INDEX.
  rewrite !shl64_index by lia.
  change (2 ^ 39) with 549755813888. change (2 ^ 30) with 1073741824.
  change (2 ^ 21) with 2097152. change (2 ^ 12) with 4096.
  rewrite (lor_aligned_add (i4 * 549755813888) (i3 * 1073741824) 39);
    [| lia | change (2 ^ 39) with (1073741824 * 512);
             Z.div_mod_to_equations; lia
       | change (2 ^ 39) with 549755813888; lia ].
  rewrite (lor_aligned_add _ (i2 * 2097152) 30);
    [| lia | change (2 ^ 30) with 1073741824;
             Z.div_mod_to_equations; lia
       | change (2 ^ 30) with 1073741824; lia ].
  rewrite (lor_aligned_add _ (i1 * 4096) 21);
    [| lia | change (2 ^ 21) with 2097152;
             Z.div_mod_to_equations; lia
       | change (2 ^ 21) with 2097152; lia ].
  rewrite (lor_aligned_add _ offset 12);
    [| lia | change (2 ^ 12) with 4096;
             Z.div_mod_to_equations; lia
       | change (2 ^ 12) with 4096; lia ].
  reflexivity.
Qed.

End Indices.

(** Joining four indices and a page offset and splitting again gives the
    same indices and offset back: the four [GET_INDEX] invert the field
    layout, and the joined address has no bit above bit 47. *)
Theorem join_va_split (i4 i3 i2 i1 offset : Z) :
  0 <= i4 < 512 -> 0 <= i3 < 512 -> 0 <= i2 < 512 -> 0 <= i1 < 512 ->
  0 <= offset < 4096 ->
  PML4E.GET_INDEX (Layout.join_va i4 i3 i2 i1 offset) = i4 /\
  PDPTE.GET_INDEX (Layout.join_va i4 i3 i2 i1 offset) = i3 /\
  PDE.GET_INDEX (Layout.join_va i4 i3 i2 i1 offset) = i2 /\
  PTE.GET_INDEX (Layout.join_va i4 i3 i2 i1 offset) = i1 /\
  Z.land (Layout.join_va i4 i3 i2 i1 offset) VA.PAGE_OFFSET_4KB_MASK = offset /\
  0 <= Layout.join_va i4 i3 i2 i1 offset < 2 ^ 48.
Proof.
  intros H4 H3 H2 H1 Hoff.
  destruct (GET_INDEX_div_mod (Layout.join_va i4 i3 i2 i1 offset))
    as (E4 & E3 & E2 & E1).
  rewrite E4, E3, E2, E1.
  change VA.PAGE_OFFSET_4KB_MASK with (Z.ones 12).
  rewrite Z.land_ones by lia.
  rewrite (join_va_sum i4 i3 i2 i1 offset) by assumption.
  change (2 ^ 39) with 549755813888. change (2 ^ 30) with 1073741824.
  change (2 ^ 21) with 2097152. change (2 ^ 12) with 4096.
  change (2 ^ 48) with 281474976710656.
  repeat split; try lia; Z.div_mod_to_equations; lia.
Qed.

Lemma join_va_split_witness :
  PML4E.GET_INDEX (Layout.join_va 511 0 257 3 0xABC) = 511 /\
  PDPTE.GET_INDEX (Layout.join_va 511 0 257 3 0xABC) = 0 /\
  PDE.GET_INDEX (Layout.join_va 511 0 257 3 0xABC) = 257 /\
  PTE.GET_INDEX (Layout.join_va 511 0 257 3 0xABC) = 3 /\
  Z.land (Layout.join_va 511 0 257 3 0xABC) VA.PAGE_OFFSET_4KB_MASK = 0xABC /\
  0 <= Layout.join_va 511 0 257 3 0xABC < 2 ^ 48.
Proof. apply (join_va_split 511 0 257 3 0xABC); lia. Defined.

Lemma index_low48 (virtual_address s : Z) :
  0 <= s -> s + 9 <= 48 ->
  Z.land (Z.shiftr (Z.land virtual_address (Z.ones 48)) s) VA.PSE_MASK
  = Z.land (Z.shiftr virtual_address s) VA.PSE_MASK.
Proof.
  intros Hs Hs9. rewrite PSE_MASK_ones.
  apply Z.bits_inj'. intros i Hi.
  rewrite !Z.land_spec, !Z.shiftr_spec, Z.land_spec, !testbit_ones' by lia.
  split_cmp; cbn [andb]; rewrite ?andb_false_r, ?andb_true_r; reflexivity.
Qed.

Lemma offset_low48 (virtual_address n : Z) :
  0 <= n <= 48 ->
  Z.land (Z.land virtual_address (Z.ones 48)) (Z.ones n)
  = Z.land virtual_address (Z.ones n).
Proof.
  intros Hn. apply Z.bits_inj'. intros i Hi.
  rewrite !Z.land_spec, !testbit_ones' by lia.
  split_cmp; cbn [andb]; rewrite ?andb_false_r, ?andb_true_r; reflexivity.
Qed.

(** No helper looks at bits 63:48 of the virtual address: every index,
    entry address and leaf address is the same for an address and for its
    low 48 bits, so canonical and non-canonical addresses are treated
    alike. *)
Theorem va_bits_63_48_ignored (x virtual_address : Z) :
  (PML4E.GET_INDEX (Z.land virtual_address 0xFFFFFFFFFFFF)
   = PML4E.GET_INDEX virtual_address /\
   PDPTE.GET_INDEX (Z.land virtual_address 0xFFFFFFFFFFFF)
   = PDPTE.GET_INDEX virtual_address /\
   PDE.GET_INDEX (Z.land virtual_address 0xFFFFFFFFFFFF)
   = PDE.GET_INDEX virtual_address /\
   PTE.GET_INDEX (Z.land virtual_address 0xFFFFFFFFFFFF)
   = PTE.GET_INDEX virtual_address) /\
  (PML4E.GET_ADDRESS x (Z.land virtual_address 0xFFFFFFFFFFFF)
   = PML4E.GET_ADDRESS x virtual_address /\
   PDPTE.GET_ADDRESS x (Z.land virtual_address 0xFFFFFFFFFFFF)
   = PDPTE.GET_ADDRESS x virtual_address /\
   PDE.GET_ADDRESS x (Z.land virtual_address 0xFFFFFFFFFFFF)
   = PDE.GET_ADDRESS x virtual_address /\
   PTE.GET_ADDRESS x (Z.land virtual_address 0xFFFFFFFFFFFF)
   = PTE.GET_ADDRESS x virtual_address) /\
  (PDPTE.GB.GET_ADDRESS x (Z.land virtual_address 0xFFFFFFFFFFFF)
   = PDPTE.GB.GET_ADDRESS x virtual_address /\
   PDE.MB.GET_ADDRESS x (Z.land virtual_address 0xFFFFFFFFFFFF)
   = PDE.MB.GET_ADDRESS x virtual_address /\
   PE.GET_ADDRESS x (Z.land virtual_address 0xFFFFFFFFFFFF)
   = PE.GET_ADDRESS x virtual_address).
Proof.
  change 0xFFFFFFFFFFFF with (Z.ones 48).
  assert (H4 : PML4E.GET_INDEX (Z.land virtual_address (Z.ones 48))
               = PML4E.GET_INDEX virtual_address)
    by (apply index_low48; unfold VA.PML4E_INDEX; lia).
  assert (H3 : PDPTE.GET_INDEX (Z.land virtual_address (Z.ones 48))
               = PDPTE.GET_INDEX virtual_address)
    by (apply index_low48; unfold VA.PDPTE_INDEX; lia).
  assert (H2 : PDE.GET_INDEX (Z.land virtual_address (Z.ones 48))
               = PDE.GET_INDEX virtual_address)
    by (apply index_low48; unfold VA.PDE_INDEX; lia).
  assert (H1 : PTE.GET_INDEX (Z.land virtual_address (Z.ones 48))
               = PTE.GET_INDEX virtual_address)
    by (apply index_low48; unfold VA.PTE_INDEX; lia).
  split; [| split].
  - repeat split; assumption.
  - unfold PML4E.GET_ADDRESS, PDPTE.GET_ADDRESS, PDE.GET_ADDRESS,
      PTE.GET_ADDRESS.
    rewrite H4, H3, H2, H1. repeat split.
  - unfold PDPTE.GB.GET_ADDRESS, PDE.MB.GET_ADDRESS, PE.GET_ADDRESS.
    change VA.PAGE_OFFSET_1GB_MASK with (Z.ones 30).
    change VA.PAGE_OFFSET_2MB_MASK with (Z.ones 21).
    change VA.PAGE_OFFSET_4KB_MASK with (Z.ones 12).
    rewrite !offset_low48 by lia. repeat split.
Qed.

(** Stepping a virtual address by one 4 KiB page advances the PTE index
    by one modulo 512, and each upper index advances by one modulo 512
    exactly when every index below it was the last one (511): the four
    indices count pages like the digits of a base-512 number. *)
Theorem next_page_indices (virtual_address : Z) :
  is_u64 virtual_address -> is_u64 (virtual_address + 4096) ->
  PTE.GET_INDEX (virtual_address + 4096)
  = (PTE.GET_INDEX virtual_address + 1) mod 512 /\
  PDE.GET_INDEX (virtual_address + 4096)
  = (if PTE.GET_INDEX virtual_address =? 511
     then (PDE.GET_INDEX virtual_address + 1) mod 512
     else PDE.GET_INDEX virtual_address) /\
  PDPTE.GET_INDEX (virtual_address + 4096)
  = (if (PTE.GET_INDEX virtual_address =? 511)
        && (PDE.GET_INDEX virtual_address =? 511)
     then (PDPTE.GET_INDEX virtual_address + 1) mod 512
     else PDPTE.GET_INDEX virtual_address) /\
  PML4E.GET_INDEX (virtual_address + 4096)
  = (if (PTE.GET_INDEX virtual_address =? 511)
        && (PDE.GET_INDEX virtual_address =? 511)
        && (PDPTE.GET_INDEX virtual_address =? 511)
     then (PML4E.GET_INDEX virtual_address + 1) mod 512
     else PML4E.GET_INDEX virtual_address).
Proof.
  intros Hva Hnext. unfold is_u64 in *.
  destruct (GET_INDEX_div_mod virtual_address) as (E4 & E3 & E2 & E1).
  destruct (GET_INDEX_div_mod (virtual_address + 4096)) as (F4 & F3 & F2 & F1).
  rewrite E4, E3, E2, E1, F4, F3, F2, F1.
  change (2 ^ 39) with 549755813888. change (2 ^ 30) with 1073741824.
  change (2 ^ 21) with 2097152. change (2 ^ 12) with 4096.
  change (2 ^ 64) with 18446744073709551616 in *.
  repeat split;
    repeat match goal with
           | |- context [?a =? ?b] => destruct (Z.eqb_spec a b)
           end;
    cbn [andb]; Z.div_mod_to_equations; lia.
Qed.

Lemma next_page_indices_witness :
  PTE.GET_INDEX (0x00007FBFFFFFF123 + 4096)
  = (PTE.GET_INDEX 0x00007FBFFFFFF123 + 1) mod 512 /\
  PDE.GET_INDEX (0x00007FBFFFFFF123 + 4096)
  = (if PTE.GET_INDEX 0x00007FBFFFFFF123 =? 511
     then (PDE.GET_INDEX 0x00007FBFFFFFF123 + 1) mod 512
     else PDE.GET_INDEX 0x00007FBFFFFFF123) /\
  PDPTE.GET_INDEX (0x00007FBFFFFFF123 + 4096)
  = (if (PTE.GET_INDEX 0x00007FBFFFFFF123 =? 511)
        && (PDE.GET_INDEX 0x00007FBFFFFFF123 =? 511)
     then (PDPTE.GET_INDEX 0x00007FBFFFFFF123 + 1) mod 512
     else PDPTE.GET_INDEX 0x00007FBFFFFFF123) /\
  PML4E.GET_INDEX (0x00007FBFFFFFF123 + 4096)
  = (if (PTE.GET_INDEX 0x00007FBFFFFFF123 =? 511)
        && (PDE.GET_INDEX 0x00007FBFFFFFF123 =? 511)
        && (PDPTE.GET_INDEX 0x00007FBFFFFFF123 =? 511)
     then (PML4E.GET_INDEX 0x00007FBFFFFFF123 + 1) mod 512
     else PML4E.GET_INDEX 0x00007FBFFFFFF123).
Proof. apply (next_page_indices 0x00007FBFFFFFF123); unfold is_u64; lia. Defined.

Example next_page_carries_into_pdpte :
  PTE.GET_INDEX 0x00007FBFFFFFF123 = 511 /\
  PDE.GET_INDEX 0x00007FBFFFFFF123 = 511 /\
  PDPTE.GET_INDEX 0x00007FBFFFFFF123 = 255 /\
  PTE.GET_INDEX (0x00007FBFFFFFF123 + 4096) = 0 /\
  PDE.GET_INDEX (0x00007FBFFFFFF123 + 4096) = 0 /\
  PDPTE.GET_INDEX (0x00007FBFFFFFF123 + 4096) = 256.
Proof. repeat split. Qed.

(** ** Leaf addresses as frame plus offset *)

Section LeafArithmetic.

(** A leaf address is the sum of an aligned frame and an offset below the
    page size. *)
Lemma leaf_frame_plus_offset (entry virtual_address lo w : Z) :
  0 <= lo -> 0 <= w ->
  Z.lor (Z.land entry (field_mask lo w)) (Z.land virtual_address (Z.ones lo))
  = Z.land entry (field_mask lo w) + virtual_address mod 2 ^ lo /\
  Z.land entry (field_mask lo w) mod 2 ^ lo = 0 /\
  0 <= virtual_address mod 2 ^ lo < 2 ^ lo.
Proof.
  intros Hlo Hw.
  assert (Hal := land_field_mask_aligned entry lo w Hlo Hw).
  assert (Hoff : 0 <= virtual_address mod 2 ^ lo < 2 ^ lo).
  { apply Z.mod_pos_bound. apply Z.pow_pos_nonneg; lia. }
  rewrite Z.land_ones by assumption.
  split; [| split]; try assumption.
  apply (lor_aligned_add _ _ lo); assumption.
Qed.

Lemma GB_frame_plus_offset (entry virtual_address : Z) :
  PDPTE.GB.GET_ADDRESS entry virtual_address
  = Z.land entry PDPTE.GB.PHYS_ADDRESS_MASK + virtual_address mod 1073741824 /\
  Z.land entry PDPTE.GB.PHYS_ADDRESS_MASK mod 1073741824 = 0 /\
  0 <= virtual_address mod 1073741824 < 1073741824.
Proof.
  exact (leaf_frame_plus_offset entry virtual_address 30 22
           ltac:(lia) ltac:(lia)).
Qed.

Lemma MB_frame_plus_offset (entry virtual_address : Z) :
  PDE.MB.GET_ADDRESS entry virtual_address
  = Z.land entry PDE.MB.PHYS_ADDRESS_MASK + virtual_address mod 2097152 /\
  Z.land entry PDE.MB.PHYS_ADDRESS_MASK mod 2097152 = 0 /\
  0 <= virtual_address mod 2097152 < 2097152.
Proof.
  exact (leaf_frame_plus_offset entry virtual_address 21 31
           ltac:(lia) ltac:(lia)).
Qed.

Lemma PE_frame_plus_offset (entry virtual_address : Z) :
  PE.GET_ADDRESS entry virtual_address
  = Z.land entry TABLE_BASE_MASK + virtual_address mod 4096 /\
  Z.land entry TABLE_BASE_MASK mod 4096 = 0 /\
  0 <= virtual_address mod 4096 < 4096.
Proof.
  exact (leaf_frame_plus_offset entry virtual_address 12 40
           ltac:(lia) ltac:(lia)).
Qed.

End LeafArithmetic.

(** Translation through a leaf keeps the offset inside the page and puts
    it in the frame of the entry: the result modulo the page size is the
    virtual address modulo the page size, and the result rounded down to
    the page size is the entry under the leaf mask; this at 1 GiB, 2 MiB
    and 4 KiB. *)
Theorem leaf_address_keeps_offset (entry virtual_address : Z) :
  (PDPTE.GB.GET_ADDRESS entry virtual_address mod 2 ^ 30
   = virtual_address mod 2 ^ 30 /\
   PDPTE.GB.GET_ADDRESS entry virtual_address / 2 ^ 30 * 2 ^ 30
   = Z.land entry PDPTE.GB.PHYS_ADDRESS_MASK) /\
  (PDE.MB.GET_ADDRESS entry virtual_address mod 2 ^ 21
   = virtual_address mod 2 ^ 21 /\
   PDE.MB.GET_ADDRESS entry virtual_address / 2 ^ 21 * 2 ^ 21
   = Z.land entry PDE.MB.PHYS_ADDRESS_MASK) /\
  (PE.GET_ADDRESS entry virtual_address mod 2 ^ 12
   = virtual_address mod 2 ^ 12 /\
   PE.GET_ADDRESS entry virtual_address / 2 ^ 12 * 2 ^ 12
   = Z.land entry TABLE_BASE_MASK).
Proof.
  destruct (GB_frame_plus_offset entry virtual_address) as (G1 & G2 & G3).
  destruct (MB_frame_plus_offset entry virtual_address) as (M1 & M2 & M3).
  destruct (PE_frame_plus_offset entry virtual_address) as (P1 & P2 & P3).
  rewrite G1, M1, P1.
  change (2 ^ 30) with 1073741824. change (2 ^ 21) with 2097152.
  change (2 ^ 12) with 4096.
  revert G2 G3 M2 M3 P2 P3.
  generalize (Z.land entry PDPTE.GB.PHYS_ADDRESS_MASK).
  generalize (Z.land entry PDE.MB.PHYS_ADDRESS_MASK).
  generalize (Z.land entry TABLE_BASE_MASK).
  intros fp fm fg G2 G3 M2 M3 P2 P3.
  repeat split; Z.div_mod_to_equations; lia.
Qed.

(** Two leaf translations of the same size give the same physical address
    exactly when the entries have the same frame and the virtual addresses
    the same offset: distinct frames never overlap, and a page is mapped
    one to one. *)
Theorem leaf_address_injective (e1 e2 va1 va2 : Z) :
  (PDPTE.GB.GET_ADDRESS e1 va1 = PDPTE.GB.GET_ADDRESS e2 va2 <->
   Z.land e1 PDPTE.GB.PHYS_ADDRESS_MASK = Z.land e2 PDPTE.GB.PHYS_ADDRESS_MASK /\
   va1 mod 2 ^ 30 = va2 mod 2 ^ 30) /\
  (PDE.MB.GET_ADDRESS e1 va1 = PDE.MB.GET_ADDRESS e2 va2 <->
   Z.land e1 PDE.MB.PHYS_ADDRESS_MASK = Z.land e2 PDE.MB.PHYS_ADDRESS_MASK /\
   va1 mod 2 ^ 21 = va2 mod 2 ^ 21) /\
  (PE.GET_ADDRESS e1 va1 = PE.GET_ADDRESS e2 va2 <->
   Z.land e1 TABLE_BASE_MASK = Z.land e2 TABLE_BASE_MASK /\
   va1 mod 2 ^ 12 = va2 mod 2 ^ 12).
Proof.
  destruct (GB_frame_plus_offset e1 va1) as (G1 & G2 & G3).
  destruct (GB_frame_plus_offset e2 va2) as (G1' & G2' & G3').
  destruct (MB_frame_plus_offset e1 va1) as (M1 & M2 & M3).
  destruct (MB_frame_plus_offset e2 va2) as (M1' & M2' & M3').
  destruct (PE_frame_plus_offset e1 va1) as (P1 & P2 & P3).
  destruct (PE_frame_plus_offset e2 va2) as (P1' & P2' & P3').
  rewrite G1, G1', M1, M1', P1, P1'.
  change (2 ^ 30) with 1073741824. change (2 ^ 21) with 2097152.
  change (2 ^ 12) with 4096.
  revert G2 G2' M2 M2' P2 P2'.
  generalize (Z.land e1 PDPTE.GB.PHYS_ADDRESS_MASK)
             (Z.land e2 PDPTE.GB.PHYS_ADDRESS_MASK)
             (Z.land e1 PDE.MB.PHYS_ADDRESS_MASK)
             (Z.land e2 PDE.MB.PHYS_ADDRESS_MASK)
             (Z.land e1 TABLE_BASE_MASK) (Z.land e2 TABLE_BASE_MASK).
  intros g1 g2 m1 m2 p1 p2 G2 G2' M2 M2' P2 P2'.
  generalize dependent (va1 mod 1073741824).
  generalize dependent (va2 mod 1073741824).
  generalize dependent (va1 mod 2097152).
  generalize dependent (va2 mod 2097152).
  generalize dependent (va1 mod 4096).
  generalize dependent (va2 mod 4096).
  intros. repeat split; intros; Z.div_mod_to_equations; lia.
Qed.

(** Two virtual addresses in the same 4 KiB page translate, through the
    same leaf entry of any size, to physical addresses at the same
    distance as the virtual ones. *)
Theorem same_page_same_distance (entry va1 va2 : Z) :
  va1 / 4096 = va2 / 4096 ->
  PDPTE.GB.GET_ADDRESS entry va2 - PDPTE.GB.GET_ADDRESS entry va1 = va2 - va1 /\
  PDE.MB.GET_ADDRESS entry va2 - PDE.MB.GET_ADDRESS entry va1 = va2 - va1 /\
  PE.GET_ADDRESS entry va2 - PE.GET_ADDRESS entry va1 = va2 - va1.
Proof.
  intros Hpage.
  destruct (GB_frame_plus_offset entry va1) as (G1 & _ & _).
  destruct (GB_frame_plus_offset entry va2) as (G2 & _ & _).
  destruct (MB_frame_plus_offset entry va1) as (M1 & _ & _).
  destruct (MB_frame_plus_offset entry va2) as (M2 & _ & _).
  destruct (PE_frame_plus_offset entry va1) as (P1 & _ & _).
  destruct (PE_frame_plus_offset entry va2) as (P2 & _ & _).
  rewrite G1, G2, M1, M2, P1, P2.
  repeat split; Z.div_mod_to_equations; lia.
Qed.

Lemma same_page_same_distance_witness :
  0xFFFF800000001234 / 4096 = 0xFFFF800000001FF0 / 4096 /\
  (PDPTE.GB.GET_ADDRESS 0x8000000040000083 0xFFFF800000001FF0
   - PDPTE.GB.GET_ADDRESS 0x8000000040000083 0xFFFF800000001234
   = 0xFFFF800000001FF0 - 0xFFFF800000001234 /\
   PDE.MB.GET_ADDRESS 0x8000000040000083 0xFFFF800000001FF0
   - PDE.MB.GET_ADDRESS 0x8000000040000083 0xFFFF800000001234
   = 0xFFFF800000001FF0 - 0xFFFF800000001234 /\
   PE.GET_ADDRESS 0x8000000040000083 0xFFFF800000001FF0
   - PE.GET_ADDRESS 0x8000000040000083 0xFFFF800000001234
   = 0xFFFF800000001FF0 - 0xFFFF800000001234).
Proof.
  split; [reflexivity |].
  apply (same_page_same_distance 0x8000000040000083
           0xFFFF800000001234 0xFFFF800000001FF0).
  reflexivity.
Defined.

(** A 2 MiB page split into 4 KiB pages translates the same: when the
    frame of the PTE is the frame of the 2 MiB PDE plus 4096 times the PTE
    index of the virtual address, [PE::GET_ADDRESS] on the PTE gives what
    [PDE::MB::GET_ADDRESS] gives on the PDE. *)
Theorem split_2MB_page_same_address (pde pte virtual_address : Z) :
  Z.land pte TABLE_BASE_MASK
  = Z.land pde PDE.MB.PHYS_ADDRESS_MASK + PTE.GET_INDEX virtual_address * 4096 ->
  PE.GET_ADDRESS pte virtual_address = PDE.MB.GET_ADDRESS pde virtual_address.
Proof.
  intros Hframe.
  destruct (PE_frame_plus_offset pte virtual_address) as (P1 & _ & _).
  destruct (MB_frame_plus_offset pde virtual_address) as (M1 & _ & _).
  destruct (GET_INDEX_div_mod virtual_address) as (_ & _ & _ & E1).
  rewrite P1, M1, Hframe, E1.
  change (2 ^ 12) with 4096.
  Z.div_mod_to_equations. lia.
Qed.

Lemma split_2MB_page_same_address_witness :
  Z.land 0x8000000000205003 TABLE_BASE_MASK
  = Z.land 0x00000000002000E3 PDE.MB.PHYS_ADDRESS_MASK
    + PTE.GET_INDEX 0x0000000000005ABC * 4096 /\
  PE.GET_ADDRESS 0x8000000000205003 0x0000000000005ABC
  = PDE.MB.GET_ADDRESS 0x00000000002000E3 0x0000000000005ABC.
Proof.
  split; [reflexivity |].
  apply (split_2MB_page_same_address 0x00000000002000E3 0x8000000000205003
           0x0000000000005ABC).
  reflexivity.
Defined.

(** A 1 GiB page split into 2 MiB pages translates the same: when the
    frame of the 2 MiB PDE is the frame of the 1 GiB PDPTE plus 2 MiB
    times the PDE index of the virtual address, [PDE::MB::GET_ADDRESS] on
    the PDE gives what [PDPTE::GB::GET_ADDRESS] gives on the PDPTE. *)
Theorem split_1GB_page_same_address (pdpte pde virtual_address : Z) :
  Z.land pde PDE.MB.PHYS_ADDRESS_MASK
  = Z.land pdpte PDPTE.GB.PHYS_ADDRESS_MASK
    + PDE.GET_INDEX virtual_address * 2097152 ->
  PDE.MB.GET_ADDRESS pde virtual_address
  = PDPTE.GB.GET_ADDRESS pdpte virtual_address.
Proof.
  intros Hframe.
  destruct (MB_frame_plus_offset pde virtual_address) as (M1 & _ & _).
  destruct (GB_frame_plus_offset pdpte virtual_address) as (G1 & _ & _).
  destruct (GET_INDEX_div_mod virtual_address) as (_ & _ & E2 & _).
  rewrite M1, G1, Hframe, E2.
  change (2 ^ 21) with 2097152.
  Z.div_mod_to_equations. lia.
Qed.

Lemma split_1GB_page_same_address_witness :
  Z.land 0x00000000406000E3 PDE.MB.PHYS_ADDRESS_MASK
  = Z.land 0x8000000040000083 PDPTE.GB.PHYS_ADDRESS_MASK
    + PDE.GET_INDEX 0xFFFF800000601234 * 2097152 /\
  PDE.MB.GET_ADDRESS 0x00000000406000E3 0xFFFF800000601234
  = PDPTE.GB.GET_ADDRESS 0x8000000040000083 0xFFFF800000601234.
Proof.
  split; [reflexivity |].
  apply (split_1GB_page_same_address 0x8000000040000083 0x00000000406000E3
           0xFFFF800000601234).
  reflexivity.
Defined.

(** ** Entry addresses taken apart again *)

Lemma below_4096_outside_table_mask (x : Z) :
  0 <= x < 4096 -> Z.land x TABLE_BASE_MASK = 0.
Proof.
  intros Hx. apply Z.bits_inj'. intros i Hi.
  rewrite Z.land_spec, testbit_TABLE_BASE_MASK, Z.bits_0.
  destruct (Z.leb_spec 12 i) as [Hge | Hlt]; cbn [andb].
  - rewrite <- (Z.mod_small x (2 ^ 12)) by (change (2 ^ 12) with 4096; lia).
    now rewrite Z.mod_pow2_bits_high by lia.
  - apply andb_false_r.
Qed.

Lemma entry_address_parts (table index : Z) :
  0 <= index < 512 ->
  Z.land (Z.lor (Z.land table TABLE_BASE_MASK) (mul64 index 8)) TABLE_BASE_MASK
  = Z.land table TABLE_BASE_MASK /\
  Z.shiftr (Z.land (Z.lor (Z.land table TABLE_BASE_MASK) (mul64 index 8)) 0xFFF) 3
  = index.
Proof.
  intros Hidx.
  assert (Hmul : mul64 index 8 = index * 8).
  { unfold mul64. apply wrap64_small. unfold is_u64. lia. }
  split.
  - rewrite Z.land_lor_distr_l, <- Z.land_assoc, Z.land_diag.
    rewrite (below_4096_outside_table_mask (mul64 index 8)) by lia.
    apply Z.lor_0_r.
  - destruct (entry_address_shape table index Hidx)
      as (Hal & _ & _ & Hadd & _).
    rewrite Hadd. change 0xFFF with (Z.ones 12).
    rewrite Z.land_ones, Z.shiftr_div_pow2 by lia.
    change (2 ^ 12) with 4096. change (2 ^ 3) with 8.
    revert Hal. generalize (Z.land table TABLE_BASE_MASK). intros base Hal.
    Z.div_mod_to_equations. lia.
Qed.

(** An entry address can be taken apart again: its table base is the table
    base of the input, its low 12 bits divided by 8 are the index; and in
    one table the entry addresses of two virtual addresses differ by eight
    times the difference of their indices, so entries of different index
    never overlap.  This at each of the four levels. *)
Theorem entry_address_roundtrip (table va1 va2 : Z) :
  (PML4E.GET_TABLE_BASE (PML4E.GET_ADDRESS table va1)
   = PML4E.GET_TABLE_BASE table /\
   Z.shiftr (Z.land (PML4E.GET_ADDRESS table va1) 0xFFF) 3
   = PML4E.GET_INDEX va1 /\
   PML4E.GET_ADDRESS table va2 - PML4E.GET_ADDRESS table va1
   = 8 * (PML4E.GET_INDEX va2 - PML4E.GET_INDEX va1)) /\
  (PDPTE.GET_TABLE_BASE (PDPTE.GET_ADDRESS table va1)
   = PDPTE.GET_TABLE_BASE table /\
   Z.shiftr (Z.land (PDPTE.GET_ADDRESS table va1) 0xFFF) 3
   = PDPTE.GET_INDEX va1 /\
   PDPTE.GET_ADDRESS table va2 - PDPTE.GET_ADDRESS table va1
   = 8 * (PDPTE.GET_INDEX va2 - PDPTE.GET_INDEX va1)) /\
  (PDE.GET_TABLE_BASE (PDE.GET_ADDRESS table va1)
   = PDE.GET_TABLE_BASE table /\
   Z.shiftr (Z.land (PDE.GET_ADDRESS table va1) 0xFFF) 3
   = PDE.GET_INDEX va1 /\
   PDE.GET_ADDRESS table va2 - PDE.GET_ADDRESS table va1
   = 8 * (PDE.GET_INDEX va2 - PDE.GET_INDEX va1)) /\
  (PTE.GET_TABLE_BASE (PTE.GET_ADDRESS table va1)
   = PTE.GET_TABLE_BASE table /\
   Z.shiftr (Z.land (PTE.GET_ADDRESS table va1) 0xFFF) 3
   = PTE.GET_INDEX va1 /\
   PTE.GET_ADDRESS table va2 - PTE.GET_ADDRESS table va1
   = 8 * (PTE.GET_INDEX va2 - PTE.GET_INDEX va1)).
Proof.
  assert (Hlevel : forall s,
    let idx va := Z.land (Z.shiftr va s) VA.PSE_MASK in
    let addr va := Z.lor (Z.land table TABLE_BASE_MASK) (mul64 (idx va) 8) in
    Z.land (addr va1) TABLE_BASE_MASK = Z.land table TABLE_BASE_MASK /\
    Z.shiftr (Z.land (addr va1) 0xFFF) 3 = idx va1 /\
    addr va2 - addr va1 = 8 * (idx va2 - idx va1)).
  { intros s idx addr. subst idx addr. cbv beta.
    pose proof (index_below_512 va1 s) as H1.
    pose proof (index_below_512 va2 s) as H2.
    destruct (entry_address_parts table _ H1) as (Hbase & Hidx).
    destruct (entry_address_shape table _ H1) as (_ & _ & _ & Ha1 & _).
    destruct (entry_address_shape table _ H2) as (_ & _ & _ & Ha2 & _).
    split; [exact Hbase |]. split; [exact Hidx |].
    rewrite Ha1, Ha2. lia. }
  split; [| split; [| split]].
  - exact (Hlevel VA.PML4E_INDEX).
  - exact (Hlevel VA.PDPTE_INDEX).
  - exact (Hlevel VA.PDE_INDEX).
  - exact (Hlevel VA.PTE_INDEX).
Qed.

(** ** Helpers applied to the results of helpers *)

(** Masking twice is masking once: a table base is its own table base,
    the entry-address helpers give the same address for an entry and for
    its table base, and, the leaf masks lying inside [TABLE_BASE_MASK],
    so do the three leaf helpers. *)
Theorem table_base_absorbed (entry virtual_address : Z) :
  (PML4E.GET_TABLE_BASE (PML4E.GET_TABLE_BASE entry)
   = PML4E.GET_TABLE_BASE entry /\
   PDPTE.GET_TABLE_BASE (PML4E.GET_TABLE_BASE entry)
   = PML4E.GET_TABLE_BASE entry /\
   PDE.GET_TABLE_BASE (PDPTE.GET_TABLE_BASE entry)
   = PDPTE.GET_TABLE_BASE entry /\
   PTE.GET_TABLE_BASE (PDE.GET_TABLE_BASE entry)
   = PDE.GET_TABLE_BASE entry) /\
  (PML4E.GET_ADDRESS (PML4E.GET_TABLE_BASE entry) virtual_address
   = PML4E.GET_ADDRESS entry virtual_address /\
   PDPTE.GET_ADDRESS (PDPTE.GET_TABLE_BASE entry) virtual_address
   = PDPTE.GET_ADDRESS entry virtual_address /\
   PDE.GET_ADDRESS (PDE.GET_TABLE_BASE entry) virtual_address
   = PDE.GET_ADDRESS entry virtual_address /\
   PTE.GET_ADDRESS (PTE.GET_TABLE_BASE entry) virtual_address
   = PTE.GET_ADDRESS entry virtual_address) /\
  (PDPTE.GB.GET_ADDRESS (PDE.GET_TABLE_BASE entry) virtual_address
   = PDPTE.GB.GET_ADDRESS entry virtual_address /\
   PDE.MB.GET_ADDRESS (PTE.GET_TABLE_BASE entry) virtual_address
   = PDE.MB.GET_ADDRESS entry virtual_address /\
   PE.GET_ADDRESS (PTE.GET_TABLE_BASE entry) virtual_address
   = PE.GET_ADDRESS entry virtual_address).
Proof.
  assert (Hnest : forall m, Z.land TABLE_BASE_MASK m = m ->
                  Z.land (Z.land entry TABLE_BASE_MASK) m = Z.land entry m).
  { intros m Hm. rewrite <- Z.land_assoc, Hm. reflexivity. }
  pose proof (Hnest TABLE_BASE_MASK eq_refl) as Ht.
  pose proof (Hnest PDPTE.GB.PHYS_ADDRESS_MASK eq_refl) as Hg.
  pose proof (Hnest PDE.MB.PHYS_ADDRESS_MASK eq_refl) as Hm.
  unfold PML4E.GET_ADDRESS, PDPTE.GET_ADDRESS, PDE.GET_ADDRESS, PTE.GET_ADDRESS,
    PDPTE.GB.GET_ADDRESS, PDE.MB.GET_ADDRESS, PE.GET_ADDRESS,
    PML4E.GET_TABLE_BASE, PDPTE.GET_TABLE_BASE, PDE.GET_TABLE_BASE,
    PTE.GET_TABLE_BASE, CR3.PML4_BASE_MASK, PML4E.PDPTE_ADDRESS_MASK,
    PDPTE.PDE_ADDRESS_MASK, PDE.PTE_ADDRESS_MASK, PTE.PHYS_ADDRESS_MASK.
  rewrite Ht, Hg, Hm. repeat split.
Qed.

(** ** The large-page test against the other helpers *)

Lemma IS_LARGE_PAGE_bit7 (entry : Z) :
  PDPTE.IS_LARGE_PAGE entry = Z.testbit entry 7 /\
  PDE.IS_LARGE_PAGE entry = Z.testbit entry 7.
Proof. split; exact (to_bool_land_pow2 entry 7 ltac:(lia)). Qed.

(** [IS_LARGE_PAGE] answers true once PS is set and false once it is
    cleared, whatever the entry was; no other flag of a PDPTE or PDE
    (large-page flags included) changes its answer; and on an entry that
    was already masked down to its table base it always answers false, so
    the test has to be made on the raw entry. *)
Theorem IS_LARGE_PAGE_only_PS (entry : Z) :
  (PDPTE.IS_LARGE_PAGE (Z.lor entry PDPTE.PS) = true /\
   PDPTE.IS_LARGE_PAGE (Z.ldiff entry PDPTE.PS) = false /\
   PDE.IS_LARGE_PAGE (Z.lor entry PDE.PS) = true /\
   PDE.IS_LARGE_PAGE (Z.ldiff entry PDE.PS) = false) /\
  Forall (fun f => f <> PDPTE.PS ->
                   PDPTE.IS_LARGE_PAGE (Z.lor entry f)
                   = PDPTE.IS_LARGE_PAGE entry /\
                   PDPTE.IS_LARGE_PAGE (Z.ldiff entry f)
                   = PDPTE.IS_LARGE_PAGE entry)
         Layout.PDPTE_GB_flags /\
  Forall (fun f => f <> PDE.PS ->
                   PDE.IS_LARGE_PAGE (Z.lor entry f)
                   = PDE.IS_LARGE_PAGE entry /\
                   PDE.IS_LARGE_PAGE (Z.ldiff entry f)
                   = PDE.IS_LARGE_PAGE entry)
         Layout.PDE_MB_flags /\
  (PDPTE.IS_LARGE_PAGE (PDE.GET_TABLE_BASE entry) = false /\
   PDE.IS_LARGE_PAGE (PTE.GET_TABLE_BASE entry) = false).
Proof.
  assert (Hflag : forall n, n <> 7 -> 0 <= n ->
            Z.testbit (Z.lor entry (2 ^ n)) 7 = Z.testbit entry 7 /\
            Z.testbit (Z.ldiff entry (2 ^ n)) 7 = Z.testbit entry 7).
  { intros n Hn Hpos.
    rewrite Z.lor_spec, Z.ldiff_spec, Z.pow2_bits_false by lia.
    cbn [negb]. rewrite orb_false_r, andb_true_r. split; reflexivity. }
  split; [| split; [| split]].
  - change PDPTE.PS with (2 ^ 7). change PDE.PS with (2 ^ 7).
    rewrite ?(proj1 (IS_LARGE_PAGE_bit7 _)), ?(proj2 (IS_LARGE_PAGE_bit7 _)).
    rewrite Z.lor_spec, Z.ldiff_spec, Z.pow2_bits_true by lia.
    cbn [negb]. rewrite orb_true_r, andb_false_r. repeat split.
  - repeat first [apply Forall_nil | apply Forall_cons];
      intros Hne; rewrite ?(proj1 (IS_LARGE_PAGE_bit7 _));
      first [ exact (Hflag 0 ltac:(lia) ltac:(lia))
            | exact (Hflag 1 ltac:(lia) ltac:(lia))
            | exact (Hflag 2 ltac:(lia) ltac:(lia))
            | exact (Hflag 3 ltac:(lia) ltac:(lia))
            | exact (Hflag 4 ltac:(lia) ltac:(lia))
            | exact (Hflag 5 ltac:(lia) ltac:(lia))
            | exact (Hflag 6 ltac:(lia) ltac:(lia))
            | exact (Hflag 8 ltac:(lia) ltac:(lia))
            | exact (Hflag 11 ltac:(lia) ltac:(lia))
            | exact (Hflag 12 ltac:(lia) ltac:(lia))
            | exact (Hflag 59 ltac:(lia) ltac:(lia))
            | exact (Hflag 63 ltac:(lia) ltac:(lia))
            | exfalso; apply Hne; reflexivity ].
  - repeat first [apply Forall_nil | apply Forall_cons];
      intros Hne; rewrite ?(proj2 (IS_LARGE_PAGE_bit7 _)), ?(proj1 (IS_LARGE_PAGE_bit7 _));
      first [ exact (Hflag 0 ltac:(lia) ltac:(lia))
            | exact (Hflag 1 ltac:(lia) ltac:(lia))
            | exact (Hflag 2 ltac:(lia) ltac:(lia))
            | exact (Hflag 3 ltac:(lia) ltac:(lia))
            | exact (Hflag 4 ltac:(lia) ltac:(lia))
            | exact (Hflag 5 ltac:(lia) ltac:(lia))
            | exact (Hflag 6 ltac:(lia) ltac:(lia))
            | exact (Hflag 8 ltac:(lia) ltac:(lia))
            | exact (Hflag 11 ltac:(lia) ltac:(lia))
            | exact (Hflag 12 ltac:(lia) ltac:(lia))
            | exact (Hflag 59 ltac:(lia) ltac:(lia))
            | exact (Hflag 63 ltac:(lia) ltac:(lia))
            | exfalso; apply Hne; reflexivity ].
  - rewrite ?(proj1 (IS_LARGE_PAGE_bit7 _)), ?(proj2 (IS_LARGE_PAGE_bit7 _)).
    unfold PDE.GET_TABLE_BASE, PTE.GET_TABLE_BASE,
      PDPTE.PDE_ADDRESS_MASK, PDE.PTE_ADDRESS_MASK.
    rewrite Z.land_spec, testbit_TABLE_BASE_MASK. cbn.
    rewrite andb_false_r. split; reflexivity.
Qed.
